(* ===== verification/_CoqProject ===== *)
-Q . S2P
Prelude.v
JsString.v
Json.v
JsonParse.v
JsonPrint.v
Storage.v
Headers.v
Runtime.v
Router.v
Session.v
Witnesses.v
