(* ===== verification/Prelude.v ===== *)
(** * A verification development of the storefront header component

    The repository's verified code is one Angular component,
    [src/src/app/headers/headers.component.ts] (class [HeadersComponent]).
    It renders the site header: it derives which of three menus to show
    ("default", "seller", "customer") from two session markers kept in
    [localStorage] and the current URL, it keeps a cart item count, and it
    offers a type-ahead product search.  Everything it talks to lies outside
    [src/]: the Angular [Router], [SellerSignupService],
    [CustomerSignupService], [ShopService], [localStorage] and [JSON.parse].

    ** Layout (files in dependency order)

    - [Prelude] (this file): the completion monad used to run JavaScript
      handlers (a state monad whose result is a normal value or a thrown
      exception, with the state reached at the throw kept, as in JS), its
      notation in [ui_scope], the tactics and the hint database [ui], and
      generic list lemmas.
    - [JsString]: [String.prototype.includes] on the URLs, the template
      literals that build routes ([`/search/${v}`], [`/product-details/${id}`]),
      and their theorems: [includes] against a reference definition by
      decomposition, and which routes contain "products".
    - [Json]: the JavaScript values that [JSON.parse] produces (with the
      induction principle for their nested lists), ToBoolean truthiness,
      [typeof === 'number'], and the [.length] property access with its
      [TypeError].
    - [JsonParse]: [JSON.parse] (ECMA-404 grammar over UTF-16 code units,
      fuel-bounded recursive descent) with the theorem that its fuel is
      always enough.
    - [JsonPrint]: [JSON.stringify] (QuoteJSONString with its escapes,
      arrays, objects without their [undefined] members, numbers as
      SerializeJSONProperty writes them: [null] for an infinity, [0] for
      a zero of either sign, else the literal they hold), the text the
      login pages store, and the round trip: [JSON.parse] reads back the
      normal form [json_norm v] of every value [v] [JSON.stringify]
      wrote (infinities as [null], zeros as [0]).
    - [Storage]: the Web Storage interface ([getItem], [setItem],
      [removeItem]) as a type class with its laws and a [gmap] instance.
    - [Headers]: the component.  Its fields are the record [header]; the
      world it runs in ([world]) adds the storage, the subscriptions opened
      by [ngOnInit], the in-flight service requests and the log of calls to
      the collaborators.  Every method and every subscription callback of
      the class is one definition, written in the completion monad line by
      line from the source.
    - [Runtime]: the event-driven execution: the inputs the browser and the
      collaborators can deliver (router events, service responses in any
      order, cart broadcasts, user actions, storage changes), the step
      function and the step relation, reachability, the invariants proved
      by rule induction, the abstract menu specification and its
      refinement under a synchronous schedule, the interleavings that
      break it, and the type of [cartCount], which no input but the
      snapshot read breaks.
    - [Router]: the router events one navigation delivers (Angular's
      sequence, seven of whose events carry the URL) as inputs of
      [Runtime.step], what a navigation does to the header, and the
      routed step [step_routed]: an input followed by the navigations
      its [navigate] calls started.
    - [Session]: the login pages as writers of the markers
      ([setItem(key, JSON.stringify(record))], an input of [Runtime]),
      composed with the header's reader and its logouts.

    - [Witnesses]: concrete storages (a [gmap]), records and runs on
      which every theorem with hypotheses is applied, by evaluation.

    ** How the parts interact

    [ngOnInit] subscribes the router callback ([on_router_event]) and the
    cart callback ([on_cart_length]).  The router callback reads the
    [admin] and [customer] markers from storage, parses both with
    [JSON.parse], and either asks a signup service for the user (its
    answer later sets [userName] and [menuType] through [on_seller_user]
    or [on_customer_user]) or sets the default menu at once.  Logout
    removes a marker and navigates; customer logout also broadcasts an
    empty cart, which reaches the cart callback synchronously.  Each
    keystroke asks the shop service for products; each answer replaces
    the search results.  [Runtime.step] interleaves all of this.

    ** Theorem groups

    - The router callback: its decision table against the spec's
      ([Headers.on_router_event_decision]), its [SyntaxError] path
      ([on_router_event_syntax_error]) and the substring test it uses
      ([JsString.includes_spec]).
    - Initialisation: the cart count read from the snapshot, the server
      count request, and the error paths ([ngOnInit_snapshot],
      [ngOnInit_bad_snapshot], [customer_marker_raw_vs_parsed]).
    - Methods: logout ([onCustomerLogout_spec], [onSellerLogout_spec]),
      search truncation ([on_search_results_bounds]).
    - Runtime: the invariant of reachable worlds by rule induction
      ([Runtime.reachable_inv], via the Hoare-style [preserves] lemmas);
      the refinement of the spec's menu table under a synchronous schedule
      ([menu_refines_spec_sync]) and the interleavings that break it
      ([stale_identity_response], [search_last_answer_wins]); commutation
      of independent callbacks ([cart_user_commute]); end-to-end logout
      ([customer_logout_then_navigation]); the cart count frozen by an
      unreadable snapshot ([bad_snapshot_freezes_cart]).
    - [JsonParse.pvalue_enough_fuel]: the parser's fuel is enough;
      [JsonPrint.json_parse_stringify]: the parser reads back the normal
      form of what the printer wrote (by induction on the fuel, mutually for values,
      elements and members, with the nesting size [jsize] bounded by the
      text's length).
    - Composition with the writers ([Session]): the header reads back
      the normal form of a stored record, and counts it as a session
      exactly when it is truthy and not an infinite number
      ([stored_record_read_back]); a stored seller record reaches the
      seller service as that normal form and gives the seller menu
      ([seller_login_flow]).
    - The cart count against the spec: once subscribed, it is the
      length of the latest broadcast whatever the interleaving
      ([Runtime.cart_refines_spec], a refinement of spec section 3); the
      server count is requested at most once ([cart_fetched_at_most_once]).
    - Navigation: one navigation to a seller page makes seven identical
      identity requests ([Router.navigation_requests_seven_times]), and
      any non-empty selection of their answers, in any order, gives the
      same header ([Router.navigation_answers_any_order]).  With the
      router in the loop, a search for a term containing "products"
      asks for the seller seven times ([Router.search_routed_seller]),
      and logging out of both roles always ends on the default menu with
      no marker left ([Router.logouts_routed_default]), unless a
      malformed customer marker makes every event of the navigation
      throw, which keeps the seller menu after seller logout
      ([Router.seller_logout_blocked_by_bad_customer]).
    - The customer session and the cart: after a login page stores a
      customer record and the header initialises, the server count is
      requested once and the count is the snapshot's overridden by each
      broadcast ([Session.customer_cart_flow]); with no customer entry it
      is never requested ([Runtime.snapshot_count_without_customer]).
    - Search ordering: a failed search leaves stale results
      ([Runtime.search_error_keeps_stale]); hiding the results does not
      cancel the search in flight, whose answer shows them again
      ([Runtime.hidden_results_reappear]).
    - Types: [cartCount] stays a number except through the snapshot
      read of line 75 ([Runtime.cartCount_stays_number]).

    ** Bounds and fuel

    [JSON.parse] is the only recursion that is not structural.  The value,
    array and object parsers consume at least one code unit per nested
    call, and an element or member list calls the value parser once on the
    same input before consuming a separator, so [2 * length + 1] units of
    fuel are enough ([JsonParse.parse_enough_fuel]); the printed text of
    a value is at least its nesting size [jsize], which is the fuel the
    round trip needs ([JsonPrint.print_size]).  The digit printer recurses
    on a fuel of [N.size_nat n] (the bit length, more than the number of
    decimal digits: [JsonPrint.dec_digits_spec]).  JavaScript numbers
    are kept as the decimal literal written, and rounding to a double is
    modelled only where the header or [JSON.stringify] observes it: a
    literal is falsy when it rounds to zero (magnitude at most
    [2^-1075]), and [JSON.stringify] writes [null] for one that rounds to
    an infinity (magnitude at least [2^1024 - 2^970], [Json.num_overflows])
    and [0] for one that rounds to a zero.  A finite non-zero number is
    printed as its literal, not as the shortest text [Number::toString]
    gives; both denote the same double.  Request ids are natural numbers
    with no bound.

    ** Not modelled

    The HTML template and the stylesheet (not in [src/]; [isHidden],
    which line 21 calls a flag to toggle visibility, is written by no
    method of the class, so only the template could toggle it); Angular
    change detection; a navigation to the current URL (Angular then
    emits a single [NavigationSkipped] event instead of a navigation); the
    login pages beyond the [setItem] of the record they store (their forms
    and HTTP calls); storage strings beyond 8-bit code units (the model's
    [string] holds bytes, so the round trip through storage is stated for
    byte strings, and through [JsonParse] for all UTF-16 code units); the
    router's URL serialisation (a router event carries the URL the
    environment gives it); the HTTP layer behind the services (answers and
    errors arrive as inputs); number values beyond zero-ness and
    overflow; the
    [Product] type (products are opaque JSON values); the aliasing of the
    array truncated in place at line 114 ([res.length = 5] shortens the
    array the service delivered; no other reader of it is in [src/], so
    the model keeps the truncated copy).

    ** Further work

    The scenarios of [Session] restated over [Router.step_routed] (the
    login pages' own navigation is outside [src/]); the template
    bindings if the template becomes available. *)

From stdpp Require Export prelude gmap strings.
From Stdlib Require Export Ascii.

Declare Scope ui_scope.
Delimit Scope ui_scope with ui.
Open Scope ui_scope.

(** ** The completion monad

    A JavaScript statement completes normally or throws.  When it throws,
    the assignments it made before the throw stay done.  [comp S E A] is a
    state transformer over [S] whose result is such a completion. *)

Inductive completion (S E A : Type) : Type :=
  | Normal (a : A) (s : S)
  | Throw (e : E) (s : S).
Arguments Normal {S E A} a s.
Arguments Throw {S E A} e s.

Definition comp (S E A : Type) : Type := S -> completion S E A.

Section Monad.
Context {S E : Type}.

Definition ret {A} (a : A) : comp S E A := fun s => Normal a s.

Definition bind {A B} (m : comp S E A) (k : A -> comp S E B) : comp S E B :=
  fun s => match m s with
           | Normal a s' => k a s'
           | Throw e s' => Throw e s'
           end.

Definition throw {A} (e : E) : comp S E A := fun s => Throw e s.

Definition get : comp S E S := fun s => Normal s s.

Definition modify (f : S -> S) : comp S E unit := fun s => Normal tt (f s).

(** The state a completion ends in, whether it threw or not. *)
Definition final_state {A} (c : completion S E A) : S :=
  match c with Normal _ s => s | Throw _ s => s end.
End Monad.

Notation "x <- m ;; k" := (bind m (fun x => k))
  (at level 60, m at next level, right associativity) : ui_scope.
Notation "m ;;; k" := (bind m (fun _ => k))
  (at level 60, right associativity) : ui_scope.

(** ** Monad laws, pointwise in the state *)

Section MonadLaws.
Context {S E : Type}.

Lemma bind_ret_l {A B} (a : A) (k : A -> comp S E B) s :
  bind (ret a) k s = k a s.
Proof. reflexivity. Qed.

Lemma bind_ret_r {A} (m : comp S E A) s : bind m ret s = m s.
Proof. unfold bind, ret. by destruct (m s). Qed.

Lemma bind_assoc {A B C} (m : comp S E A) (k : A -> comp S E B)
      (h : B -> comp S E C) s :
  bind (bind m k) h s = bind m (fun a => bind (k a) h) s.
Proof. unfold bind. by destruct (m s). Qed.

Lemma bind_throw {A B} (e : E) (k : A -> comp S E B) s :
  bind (throw e) k s = Throw e s.
Proof. reflexivity. Qed.

Lemma bind_normal {A B} (m : comp S E A) (k : A -> comp S E B) s a s' :
  m s = Normal a s' -> bind m k s = k a s'.
Proof. unfold bind. by intros ->. Qed.

Lemma bind_abrupt {A B} (m : comp S E A) (k : A -> comp S E B) s e s' :
  m s = Throw e s' -> bind m k s = Throw e s'.
Proof. unfold bind. by intros ->. Qed.
End MonadLaws.

Create HintDb ui.
Create Rewrite HintDb ui.
#[export] Hint Rewrite @bind_ret_l @bind_assoc @bind_throw : ui.

(** [mrun] unfolds the monad's plumbing so that a handler applied to a
    concrete state computes by [simpl]. *)
Ltac mrun := cbv [bind ret throw get modify] in *; simpl in *.

(** ** Generic list lemmas *)

(** Truncating a JavaScript array by assigning its [length] when it is
    larger keeps the first [n] elements: this is [take n] in both branches. *)
Lemma take_when_longer {A} (n : nat) (l : list A) :
  (if decide (n < length l) then take n l else l) = take n l.
Proof. case_decide; [done|]. rewrite take_ge; [done|lia]. Qed.

Lemma length_take_le {A} (n : nat) (l : list A) : length (take n l) ≤ n.
Proof. rewrite length_take. lia. Qed.

#[export] Hint Resolve length_take_le : ui.

Lemma forallb_Forall {A} (p : A -> bool) (l : list A) :
  forallb p l = true <-> Forall (λ x, p x = true) l.
Proof. rewrite forallb_forall, List.Forall_forall. done. Qed.
