(* ===== verification/JsString.v ===== *)
(** * JavaScript string operations used by the header

    [includes] is [String.prototype.includes] with its default start
    position 0, as called at [headers.component.ts:52]
    ([res.url.includes('products')]).  [search_route] and [details_route]
    are the template literals of [onSearch] (line 105) and
    [redirectToDetails] (line 128).  The file proves [includes] equal to a
    reference definition by decomposition, and which routes the header can
    produce contain "products". *)

From S2P Require Import Prelude.

(** ** [String.prototype.includes]

    [s.includes(t)] is true when [t] occurs in [s] at some index [k] with
    [k + t.length <= s.length]; an empty [t] occurs everywhere. *)

Fixpoint includes (s t : string) : bool :=
  String.prefix t s ||
  match s with
  | EmptyString => false
  | String _ s' => includes s' t
  end.

(** The route strings handed to [router.navigate]. *)
Definition root_route : string := "/".
Definition search_route (searchVal : string) : string :=
  String.append "/search/" searchVal.
Definition details_route (productId : string) : string :=
  String.append "/product-details/" productId.

(** The substring the header tests a URL for (line 52). *)
Definition products_marker : string := "products".

(** ** Lemmas on prefixes and appends *)

(** stdpp makes [String.append] opaque to [simpl]; this is its step. *)
Lemma append_cons (c : ascii) (a b : string) :
  String.append (String c a) b = String c (String.append a b).
Proof. reflexivity. Qed.

Lemma prefix_spec (t s : string) :
  String.prefix t s = true <-> exists q, s = String.append t q.
Proof.
  revert s. induction t as [|c t IH]; intros [|d s]; simpl;
    try setoid_rewrite append_cons.
  - split; [by exists EmptyString | done].
  - split; [by exists (String d s) | done].
  - split; [done | by intros [q ?]].
  - destruct (ascii_dec c d) as [->|Hcd].
    + rewrite IH. split; intros [q Hq]; exists q; congruence.
    + split; [done|]. intros [q Hq]. congruence.
Qed.

Lemma append_assoc_str (a b c : string) :
  String.append (String.append a b) c = String.append a (String.append b c).
Proof. induction a as [|x a IH]; [done|]. by rewrite !append_cons, IH. Qed.

Lemma append_empty_r (a : string) : String.append a EmptyString = a.
Proof. induction a as [|x a IH]; [done|]. by rewrite !append_cons, IH. Qed.

Lemma length_append_str (a b : string) :
  String.length (String.append a b) = String.length a + String.length b.
Proof. induction a as [|x a IH]; [done|]. rewrite append_cons. simpl. by rewrite IH. Qed.

Lemma includes_cons (c : ascii) (s t : string) :
  includes (String c s) t = String.prefix t (String c s) || includes s t.
Proof. reflexivity. Qed.

Lemma includes_nil (t : string) :
  includes EmptyString t = String.prefix t EmptyString.
Proof. by destruct t. Qed.

Lemma includes_empty_needle (s : string) : includes s EmptyString = true.
Proof. by destruct s. Qed.

#[export] Hint Rewrite includes_cons append_empty_r : ui.

(** The reference definition: [t] occurs in [s] when [s] splits as
    [p ++ t ++ q]. *)
Definition occurs_in (t s : string) : Prop :=
  exists p q, s = String.append p (String.append t q).

(** [C16] [includes] is the reference definition: [s.includes(t)] is true
    exactly when [s] splits as [p ++ t ++ q]. *)
Theorem includes_spec (s t : string) :
  includes s t = true <-> occurs_in t s.
Proof.
  unfold occurs_in. induction s as [|c s IH].
  - rewrite includes_nil, prefix_spec. split.
    + intros [q Hq]. by exists EmptyString, q.
    + intros [[|x p] [q Hq]]; rewrite ?append_cons in Hq; [by exists q | done].
  - rewrite includes_cons, orb_true_iff, prefix_spec, IH. split.
    + intros [[q Hq] | (p & q & Hq)].
      * by exists EmptyString, q.
      * exists (String c p), q. by rewrite Hq, append_cons.
    + intros ([|x p] & q & Hq); rewrite ?append_cons in Hq.
      * left. by exists q.
      * right. exists p, q. congruence.
Qed.

(** ** Which routes contain "products"

    The fixed part of each route built by the header never overlaps
    "products", so a route contains it exactly when the user-supplied part
    does.  The root route never does. *)

Lemma root_route_no_products : includes root_route products_marker = false.
Proof. reflexivity. Qed.

Lemma search_route_products (searchVal : string) :
  includes (search_route searchVal) products_marker =
  includes searchVal products_marker.
Proof. reflexivity. Qed.
