(* ===== verification/Json.v ===== *)
(** * JavaScript values as the header sees them

    The header reads three storage entries through [JSON.parse] and then
    tests them for truthiness ([sellerData && ...], [if (customerData)]) or
    reads their [.length] ([JSON.parse(cartData).length], line 75, and
    [res.length] in the cart subscription, line 86).  This file holds the
    values [JSON.parse] can return ([jsval], plus [undefined]), JavaScript's
    ToBoolean ([truthy]), and the property read [.length] with its
    [TypeError] on [null] and [undefined].  JavaScript strings are sequences
    of UTF-16 code units, kept as [list N]. *)

From S2P Require Import Prelude.

(** A JSON number literal as written: [(-1)^neg * mant * 10^exp].  The
    double it denotes is this value rounded to nearest, ties to even. *)
Record jsnum := JsNum { num_neg : bool; num_mant : N; num_exp : Z }.

#[local] Set Warnings "-register-all".
Inductive jsval : Type :=
  | JUndefined
  | JNull
  | JBool (b : bool)
  | JNum (n : jsnum)
  | JStr (s : list N)
  | JArr (elems : list jsval)
  | JObj (fields : list (list N * jsval)).

(** The induction principle for the nested lists of arrays and objects. *)
Section jsval_ind.
Variable P : jsval -> Prop.
Hypothesis HUndefined : P JUndefined.
Hypothesis HNull : P JNull.
Hypothesis HBool : ∀ b, P (JBool b).
Hypothesis HNum : ∀ n, P (JNum n).
Hypothesis HStr : ∀ s, P (JStr s).
Hypothesis HArr : ∀ l, Forall P l -> P (JArr l).
Hypothesis HObj : ∀ fs, Forall (λ kv, P kv.2) fs -> P (JObj fs).

Fixpoint jsval_nested_ind (v : jsval) : P v :=
  match v with
  | JUndefined => HUndefined
  | JNull => HNull
  | JBool b => HBool b
  | JNum n => HNum n
  | JStr s => HStr s
  | JArr l =>
      HArr l ((fix go (l : list jsval) : Forall P l :=
                 match l with
                 | [] => List.Forall_nil _
                 | x :: l' => List.Forall_cons _ x l' (jsval_nested_ind x) (go l')
                 end) l)
  | JObj fs =>
      HObj fs ((fix go (fs : list (list N * jsval)) : Forall (λ kv, P kv.2) fs :=
                  match fs with
                  | [] => List.Forall_nil _
                  | kv :: fs' => List.Forall_cons _ kv fs' (jsval_nested_ind kv.2) (go fs')
                  end) fs)
  end.
End jsval_ind.

Inductive js_error : Type :=
  | SyntaxError   (** thrown by [JSON.parse] on malformed text *)
  | TypeError.    (** thrown by a property read on [null] or [undefined] *)

#[export] Instance js_error_eq_dec : EqDecision js_error.
Proof. solve_decision. Defined.

(** The code units of a string of the model's storage. *)
Definition units (s : string) : list N :=
  map N_of_ascii (String.list_ascii_of_string s).

(** ** Numbers *)

(** A literal rounds to a zero double when it is [0] or when its magnitude
    is at most half the smallest subnormal, [2^-1075] (the tie rounds to the
    even neighbour, zero). *)
Definition num_is_zero (n : jsnum) : bool :=
  (num_mant n =? 0)%N ||
  ((num_exp n <? 0)%Z &&
   (Z.of_N (num_mant n) * 2 ^ 1075 <=? 10 ^ (- num_exp n))%Z).

(** A literal rounds to an infinite double when its magnitude is at least
    [2^1024 - 2^970], halfway between the largest finite double
    [(2^53 - 1) * 2^971] and [2^1024] (the tie rounds to the even
    neighbour, which is past the largest double: infinity). *)
Definition overflow_threshold : Z := (2 ^ 970 * (2 ^ 54 - 1))%Z.

Definition num_overflows (n : jsnum) : bool :=
  if (0 <=? num_exp n)%Z then (overflow_threshold <=? Z.of_N (num_mant n) * 10 ^ num_exp n)%Z
  else (overflow_threshold * 10 ^ (- num_exp n) <=? Z.of_N (num_mant n))%Z.

(** The number value of an array or string length. *)
Definition num_of_nat (k : nat) : jsnum := JsNum false (N.of_nat k) 0.

(** ** ToBoolean (ECMA-262 7.1.2) *)

Definition truthy (v : jsval) : bool :=
  match v with
  | JUndefined | JNull => false
  | JBool b => b
  | JNum n => negb (num_is_zero n)
  | JStr s => negb (bool_decide (s = []))
  | JArr _ | JObj _ => true
  end.

(** [typeof v === 'number']. *)
Definition is_number (v : jsval) : bool :=
  match v with JNum _ => true | _ => false end.

(** ** Property reads *)

(** The own data property [k] of an object literal: [JSON.parse] keeps the
    last of duplicate keys. *)
Definition obj_get (fields : list (list N * jsval)) (k : list N) : jsval :=
  fold_left (fun acc kv => if bool_decide (kv.1 = k) then kv.2 else acc)
            fields JUndefined.

(** [v.length]: the length of an array or string, the own property of an
    object, [undefined] on booleans and numbers (their prototypes have no
    [length]), and a [TypeError] on [null] and [undefined]. *)
Definition get_length (v : jsval) : option jsval :=
  match v with
  | JUndefined | JNull => None
  | JBool _ | JNum _ => Some JUndefined
  | JStr s => Some (JNum (num_of_nat (length s)))
  | JArr l => Some (JNum (num_of_nat (length l)))
  | JObj fs => Some (obj_get fs (units "length"))
  end.

(** The same read in the completion monad, over any state. *)
Definition read_length {S} (v : jsval) : comp S js_error jsval :=
  match get_length v with
  | Some r => ret r
  | None => throw TypeError
  end.

(** ** Lemmas *)

Lemma num_of_nat_zero (k : nat) : num_is_zero (num_of_nat k) = bool_decide (k = 0).
Proof. by destruct k. Qed.

Lemma truthy_length_num (k : nat) : truthy (JNum (num_of_nat k)) = bool_decide (k ≠ 0).
Proof. simpl. rewrite num_of_nat_zero. by destruct k. Qed.

Lemma get_length_arr (l : list jsval) :
  get_length (JArr l) = Some (JNum (num_of_nat (length l))).
Proof. reflexivity. Qed.

Lemma get_length_error (v : jsval) :
  get_length v = None <-> v = JUndefined \/ v = JNull.
Proof. destruct v; simpl; intuition congruence. Qed.

Lemma read_length_spec {S} (v : jsval) (s : S) :
  read_length v s =
  match get_length v with Some r => Normal r s | None => Throw TypeError s end.
Proof. unfold read_length. by destruct (get_length v). Qed.

#[export] Hint Rewrite get_length_arr : ui.
