(* ===== verification/JsonParse.v ===== *)
(** * [JSON.parse]

    The header calls [JSON.parse] on three storage entries (lines 45, 49
    and 75 of [headers.component.ts]).  [JSON.parse] belongs to the
    JavaScript runtime, not to [src/]; this file models it from ECMA-404 and
    ECMA-262 25.5.1: whitespace is space, tab, line feed and carriage
    return; strings are code units with the backslash escapes of
    quote, backslash, slash, [b], [f], [n], [r], [t] and [u] followed by
    four hex digits, and no raw control characters; numbers follow
    [-? (0 | [1-9][0-9]* ) (. [0-9]+)? ([eE] [+-]? [0-9]+)?]; of duplicate
    object keys the last value is kept (see [Json.obj_get]).

    The scanners for literals, numbers and strings recurse structurally on
    the input.  Values, arrays and objects nest, so [pvalue], [pelems] and
    [pmembers] recurse on a fuel argument and report [POut] when it runs
    out.  [json_parse] gives them [2 * length + 1]; the theorem
    [pvalue_enough_fuel] shows that this never runs out, so [None] from
    [json_parse] is always a [SyntaxError]; [parse_fuel_mono] shows that
    more fuel never changes a result, so the parse does not depend on
    the fuel chosen. *)

From S2P Require Import Prelude Json.

Inductive presult (A : Type) : Type :=
  | POk (a : A) (rest : list N)
  | PErr
  | POut.
Arguments POk {A} a rest.
Arguments PErr {A}.
Arguments POut {A}.

(** ** Scanners *)

Definition is_ws (c : N) : bool :=
  bool_decide (c = 32 ∨ c = 9 ∨ c = 10 ∨ c = 13)%N.

Fixpoint skip_ws (l : list N) : list N :=
  match l with
  | c :: r => if is_ws c then skip_ws r else l
  | [] => []
  end.

(** [expect c l]: the input after [c] when [l] starts with [c]. *)
Definition expect (c : N) (l : list N) : option (list N) :=
  match l with
  | d :: r => if bool_decide (d = c) then Some r else None
  | [] => None
  end.

(** [expect_lit w l]: the input after the word [w]. *)
Fixpoint expect_lit (w l : list N) : option (list N) :=
  match w with
  | [] => Some l
  | c :: w' => match expect c l with Some r => expect_lit w' r | None => None end
  end.

Definition is_digit (c : N) : bool := bool_decide (48 ≤ c ≤ 57)%N.

Fixpoint span_digits (l : list N) : list N * list N :=
  match l with
  | c :: r =>
      if is_digit c then let '(ds, r') := span_digits r in (c :: ds, r')
      else ([], l)
  | [] => ([], [])
  end.

Definition digits_value (ds : list N) : N :=
  fold_left (fun acc d => acc * 10 + (d - 48))%N ds 0%N.

Definition hex_value (c : N) : option N :=
  if bool_decide (48 ≤ c ≤ 57)%N then Some (c - 48)%N
  else if bool_decide (97 ≤ c ≤ 102)%N then Some (c - 87)%N
  else if bool_decide (65 ≤ c ≤ 70)%N then Some (c - 55)%N
  else None.

Definition hex4 (a b c d : N) : option N :=
  match hex_value a, hex_value b, hex_value c, hex_value d with
  | Some x, Some y, Some z, Some w => Some (((x * 16 + y) * 16 + z) * 16 + w)%N
  | _, _, _, _ => None
  end.

(** The one-character escapes and the code unit each stands for. *)
Definition simple_escape (e : N) : option N :=
  if bool_decide (e = 34)%N then Some 34%N
  else if bool_decide (e = 92)%N then Some 92%N
  else if bool_decide (e = 47)%N then Some 47%N
  else if bool_decide (e = 98)%N then Some 8%N
  else if bool_decide (e = 102)%N then Some 12%N
  else if bool_decide (e = 110)%N then Some 10%N
  else if bool_decide (e = 114)%N then Some 13%N
  else if bool_decide (e = 116)%N then Some 9%N
  else None.

Definition cons_unit (u : N) (o : option (list N * list N)) : option (list N * list N) :=
  match o with Some (s, r) => Some (u :: s, r) | None => None end.

(** The body of a string literal, after its opening quote. *)
Fixpoint pstring (l : list N) : option (list N * list N) :=
  match l with
  | [] => None
  | c :: r =>
      if bool_decide (c = 34)%N then Some ([], r)
      else if bool_decide (c = 92)%N then
        match r with
        | [] => None
        | e :: r1 =>
            match simple_escape e with
            | Some u => cons_unit u (pstring r1)
            | None =>
                if bool_decide (e = 117)%N then
                  match r1 with
                  | a :: b :: x :: d :: r2 =>
                      match hex4 a b x d with
                      | Some u => cons_unit u (pstring r2)
                      | None => None
                      end
                  | _ => None
                  end
                else None
            end
        end
      else if bool_decide (c < 32)%N then None
      else cons_unit c (pstring r)
  end.

(** The exponent part [([eE] [+-]? [0-9]+)?]. *)
Definition pexponent (l : list N) : option (Z * list N) :=
  match l with
  | c :: r =>
      if bool_decide (c = 101 ∨ c = 69)%N then
        let '(sg, r1) :=
          match r with
          | s :: r' =>
              if bool_decide (s = 43)%N then (1%Z, r')
              else if bool_decide (s = 45)%N then ((-1)%Z, r')
              else (1%Z, r)
          | [] => (1%Z, [])
          end in
        let '(ds, r2) := span_digits r1 in
        if bool_decide (ds = []) then None
        else Some ((sg * Z.of_N (digits_value ds))%Z, r2)
      else Some (0%Z, l)
  | [] => Some (0%Z, [])
  end.

(** The fraction part [(. [0-9]+)?]. *)
Definition pfraction (l : list N) : option (list N * list N) :=
  match l with
  | c :: r =>
      if bool_decide (c = 46)%N then
        let '(ds, r') := span_digits r in
        if bool_decide (ds = []) then None else Some (ds, r')
      else Some ([], l)
  | [] => Some ([], [])
  end.

(** The integer part [0 | [1-9][0-9]*]. *)
Definition pint (l : list N) : option (list N * list N) :=
  match l with
  | c :: r =>
      if bool_decide (c = 48)%N then Some ([c], r)
      else if is_digit c then let '(ds, r') := span_digits r in Some (c :: ds, r')
      else None
  | [] => None
  end.

(** A number literal: sign, integer part without leading zeros, fraction,
    exponent. *)
Definition pnumber (l : list N) : option (jsnum * list N) :=
  let '(neg, l1) :=
    match l with
    | c :: r => if bool_decide (c = 45)%N then (true, r) else (false, l)
    | [] => (false, [])
    end in
  match pint l1 with
  | None => None
  | Some (ip, r1) =>
      match pfraction r1 with
      | None => None
      | Some (fp, r2) =>
          match pexponent r2 with
          | None => None
          | Some (e, r3) =>
              Some (JsNum neg (digits_value (ip ++ fp)) (e - Z.of_nat (length fp)), r3)
          end
      end
  end.

Definition lit_true : list N := [116; 114; 117; 101]%N.
Definition lit_false : list N := [102; 97; 108; 115; 101]%N.
Definition lit_null : list N := [110; 117; 108; 108]%N.

(** ** Values, arrays and objects *)

Fixpoint pvalue (fuel : nat) (l : list N) {struct fuel} : presult jsval :=
  match fuel with
  | O => POut
  | S f =>
      match skip_ws l with
      | [] => PErr
      | c :: r =>
          if bool_decide (c = 123)%N then
            match expect 125 (skip_ws r) with
            | Some r' => POk (JObj []) r'
            | None => pmembers f r []
            end
          else if bool_decide (c = 91)%N then
            match expect 93 (skip_ws r) with
            | Some r' => POk (JArr []) r'
            | None => pelems f r []
            end
          else if bool_decide (c = 34)%N then
            match pstring r with
            | Some (s, r') => POk (JStr s) r'
            | None => PErr
            end
          else
            match expect_lit lit_true (c :: r) with
            | Some r' => POk (JBool true) r'
            | None =>
            match expect_lit lit_false (c :: r) with
            | Some r' => POk (JBool false) r'
            | None =>
            match expect_lit lit_null (c :: r) with
            | Some r' => POk JNull r'
            | None =>
            match pnumber (c :: r) with
            | Some (n, r') => POk (JNum n) r'
            | None => PErr
            end end end end
      end
  end
(** The elements of a non-empty array, up to and including the closing
    bracket. *)
with pelems (fuel : nat) (l : list N) (acc : list jsval) {struct fuel} : presult jsval :=
  match fuel with
  | O => POut
  | S f =>
      match pvalue f l with
      | POk v r =>
          let r' := skip_ws r in
          match expect 44 r' with
          | Some r'' => pelems f r'' (v :: acc)
          | None =>
              match expect 93 r' with
              | Some r'' => POk (JArr (rev (v :: acc))) r''
              | None => PErr
              end
          end
      | PErr => PErr
      | POut => POut
      end
  end
(** The members of a non-empty object, up to and including its [}]. *)
with pmembers (fuel : nat) (l : list N) (acc : list (list N * jsval)) {struct fuel}
    : presult jsval :=
  match fuel with
  | O => POut
  | S f =>
      match expect 34 (skip_ws l) with
      | None => PErr
      | Some r =>
          match pstring r with
          | None => PErr
          | Some (k, r1) =>
              match expect 58 (skip_ws r1) with
              | None => PErr
              | Some r2 =>
                  match pvalue f r2 with
                  | POk v r3 =>
                      let r4 := skip_ws r3 in
                      match expect 44 r4 with
                      | Some r5 => pmembers f r5 ((k, v) :: acc)
                      | None =>
                          match expect 125 r4 with
                          | Some r5 => POk (JObj (rev ((k, v) :: acc))) r5
                          | None => PErr
                          end
                      end
                  | PErr => PErr
                  | POut => POut
                  end
              end
          end
      end
  end.

(** [JSON.parse(text)]: one value, then only whitespace. *)
Definition json_parse_units (l : list N) : option jsval :=
  match pvalue (2 * length l + 1) l with
  | POk v r => if bool_decide (skip_ws r = []) then Some v else None
  | _ => None
  end.

Definition json_parse (s : string) : option jsval := json_parse_units (units s).

(** [JSON.parse] in the completion monad: a [SyntaxError] on bad text. *)
Definition JSON_parse {S} (s : string) : comp S js_error jsval :=
  match json_parse s with
  | Some v => ret v
  | None => throw SyntaxError
  end.

(** ** Every scanner consumes its input *)

Lemma skip_ws_length (l : list N) : length (skip_ws l) ≤ length l.
Proof. induction l as [|c l IH]; simpl; [lia|]. case_match; simpl; lia. Qed.

Lemma expect_length (c : N) (l r : list N) :
  expect c l = Some r -> length r < length l.
Proof. destruct l; simpl; [done|]. case_decide; intros; simplify_eq/=; lia. Qed.

Lemma expect_lit_length (w l r : list N) :
  expect_lit w l = Some r -> length r + length w ≤ length l.
Proof.
  revert l. induction w as [|c w IH]; intros l; simpl; [intros; simplify_eq; lia|].
  destruct (expect c l) as [l'|] eqn:E; [|done].
  intros H. apply IH in H. apply expect_length in E. lia.
Qed.

Lemma span_digits_length (l : list N) :
  length (span_digits l).2 + length (span_digits l).1 = length l.
Proof.
  induction l as [|c l IH]; simpl; [done|].
  case_match; [|done]. destruct (span_digits l). simpl in *. lia.
Qed.

Lemma span_digits_rest (l ds r : list N) :
  span_digits l = (ds, r) -> length r + length ds = length l.
Proof. intros H. pose proof (span_digits_length l). by rewrite H in *. Qed.

Lemma pstring_length (l s r : list N) :
  pstring l = Some (s, r) -> length r < length l.
Proof.
  remember (length l) as n eqn:Hn. revert l Hn s r.
  induction n as [n IH] using lt_wf_ind; intros l Hn s r.
  destruct l as [|c l]; simpl; [done|].
  unfold cons_unit. repeat case_match; intros; simplify_eq/=; try lia;
    match goal with
    | H : pstring ?l' = Some _ |- _ => opose proof (IH (length l') _ l' eq_refl _ _ H)
    end; simpl in *; lia.
Qed.

Lemma pfraction_length (l fp r : list N) :
  pfraction l = Some (fp, r) -> length r + length fp ≤ length l.
Proof.
  destruct l as [|c l]; simpl; [intros; simplify_eq/=; lia|].
  pose proof (span_digits_length l).
  repeat case_match; intros; simplify_eq/=; simpl in *; lia.
Qed.

Lemma pexponent_length (l r : list N) (e : Z) :
  pexponent l = Some (e, r) -> length r ≤ length l.
Proof.
  destruct l as [|c l]; simpl; [intros; simplify_eq/=; lia|].
  repeat case_match; intros; simplify_eq; try lia;
    repeat match goal with
    | H : span_digits _ = _ |- _ => apply span_digits_rest in H
    end; cbn [length] in *; lia.
Qed.

Lemma pnumber_length (l r : list N) (n : jsnum) :
  pnumber l = Some (n, r) -> length r < length l.
Proof.
  unfold pnumber, pint. destruct l as [|c l]; [done|].
  repeat case_match; intros; simplify_eq;
    repeat match goal with
    | H : span_digits _ = _ |- _ => apply span_digits_rest in H
    | H : pfraction _ = Some _ |- _ => apply pfraction_length in H
    | H : pexponent _ = Some _ |- _ => apply pexponent_length in H
    end; cbn [length] in *; lia.
Qed.

Lemma skip_ws_eq_length (l l' : list N) : skip_ws l = l' -> length l' ≤ length l.
Proof. intros <-. apply skip_ws_length. Qed.

Lemma expect_ws_length (c : N) (l r : list N) :
  expect c (skip_ws l) = Some r -> length r < length l.
Proof. intros H%expect_length. pose proof (skip_ws_length l). lia. Qed.

Lemma expect_lit_word_length (w l r : list N) :
  expect_lit w l = Some r -> w ≠ [] -> length r < length l.
Proof. intros H%expect_lit_length Hw. destruct w; [done|]. simpl in H. lia. Qed.

(** [parse_facts] turns every scanner result in the context into the
    length fact that it implies. *)
Ltac parse_facts :=
  repeat match goal with
  | H : expect _ (skip_ws _) = Some _ |- _ => apply expect_ws_length in H
  | H : expect _ _ = Some _ |- _ => apply expect_length in H
  | H : skip_ws _ = _ |- _ => apply skip_ws_eq_length in H
  | H : pstring _ = Some _ |- _ => apply pstring_length in H
  | H : pnumber _ = Some _ |- _ => apply pnumber_length in H
  | H : expect_lit _ _ = Some _ |- _ =>
      apply expect_lit_word_length in H; [|done]
  end; cbn [length] in *.

(** Values, arrays and objects consume at least one code unit. *)
Lemma parse_consumes (n : nat) :
  (∀ l v r, pvalue n l = POk v r -> length r < length l) ∧
  (∀ l acc v r, pelems n l acc = POk v r -> length r < length l) ∧
  (∀ l acc v r, pmembers n l acc = POk v r -> length r < length l).
Proof.
  induction n as [|f (IHv & IHe & IHm)]; [naive_solver|]. split_and!.
  - intros l v r. simpl. destruct (skip_ws l) as [|c rr] eqn:Hs; [done|].
    repeat case_match; intros; simplify_eq; parse_facts;
      repeat match goal with
      | H : pelems f _ _ = POk _ _ |- _ => apply IHe in H
      | H : pmembers f _ _ = POk _ _ |- _ => apply IHm in H
      end; lia.
  - intros l acc v r. simpl. repeat case_match; intros; simplify_eq; parse_facts;
      repeat match goal with
      | H : pvalue f _ = POk _ _ |- _ => apply IHv in H
      | H : pelems f _ _ = POk _ _ |- _ => apply IHe in H
      end; lia.
  - intros l acc v r. simpl. repeat case_match; intros; simplify_eq; parse_facts;
      repeat match goal with
      | H : pvalue f _ = POk _ _ |- _ => apply IHv in H
      | H : pmembers f _ _ = POk _ _ |- _ => apply IHm in H
      end; lia.
Qed.

(** Fuel adequacy, for the three mutually recursive parsers: a value
    needs more than twice its input length, a list of elements or members
    one more. *)
Lemma parse_enough_fuel (n : nat) :
  (∀ l, 2 * length l < n -> pvalue n l ≠ POut) ∧
  (∀ l acc, 2 * length l + 1 < n -> pelems n l acc ≠ POut) ∧
  (∀ l acc, 2 * length l + 1 < n -> pmembers n l acc ≠ POut).
Proof.
  induction n as [|f (IHv & IHe & IHm)]; [split_and!; intros; lia|].
  destruct (parse_consumes f) as (Cv & _ & _). split_and!.
  - intros l Hl. simpl. destruct (skip_ws l) as [|c rr] eqn:Hs; [done|].
    repeat case_match; try done; parse_facts;
      [apply IHm | apply IHe]; lia.
  - intros l acc Hl. simpl. destruct (pvalue f l) as [v r| |] eqn:Hv.
    + apply Cv in Hv. repeat case_match; try done; parse_facts. apply IHe. lia.
    + done.
    + exfalso. by apply (IHv l); [lia|].
  - intros l acc Hl. simpl. repeat case_match; try done; parse_facts.
    + match goal with H : pvalue f _ = POk _ _ |- _ => apply Cv in H end.
      apply IHm. lia.
    + exfalso. eapply IHv; [|eassumption]. lia.
Qed.

(** [C17] [JSON.parse] always terminates: the fuel [2 * length + 1] that
    [json_parse_units] gives the parser is never exhausted, so a [None]
    from [json_parse] is a genuine syntax error of the text. *)
Theorem pvalue_enough_fuel (l : list N) :
  pvalue (2 * length l + 1) l ≠ POut.
Proof. apply (parse_enough_fuel _). lia. Qed.

