(* ===== verification/JsonPrint.v ===== *)
(** * [JSON.stringify], the writer of the session markers

    The markers the header parses (lines 45 and 49) are written by the
    login pages, outside [src/], as [JSON.stringify] of the user record.
    This file models [JSON.stringify] (ECMA-262 25.5.2) on the values of
    [Json] and proves that the header's [JSON.parse] reads back exactly the
    value written.  Strings are quoted as QuoteJSONString does: the short
    escapes for backspace, tab, line feed, form feed, carriage return,
    quote and backslash, [\u] followed by four lowercase hex digits for the
    other control characters and for lone surrogates, and every other code
    unit as it is (a surrogate pair stays raw).  In arrays [undefined]
    prints as [null]; in objects a member whose value is [undefined] is
    left out; [undefined] alone has no JSON text.  A number that rounds
    to an infinite double prints as [null] and one that rounds to a zero
    (either sign) as [0], as SerializeJSONProperty does; any other number
    is printed as the decimal literal it holds, with an exponent when it
    is not 0.  That is not the shortest form [Number::toString] prints,
    but it denotes the same double.  So [JSON.parse] reads back not [v]
    but its normal form [json_norm v]: infinities become [null], zeros
    become [0], everything else is kept. *)

From S2P Require Import Prelude Json JsonParse.

(** ** Numbers *)

(** The decimal digits of [n], most significant first, as code units;
    [fuel] bounds the number of digits. *)
Fixpoint dec_digits (fuel : nat) (n : N) : list N :=
  match fuel with
  | O => [48 + n]%N
  | S f =>
      if (n <? 10)%N then [48 + n]%N
      else dec_digits f (n / 10)%N ++ [48 + n mod 10]%N
  end.

Definition print_N (n : N) : list N := dec_digits (N.size_nat n) n.

(** The exponent part, [e+k] or [e-k], left out when the exponent is 0. *)
Definition print_exponent (e : Z) : list N :=
  if bool_decide (e = 0%Z) then []
  else 101%N :: (if bool_decide (e < 0)%Z then 45%N else 43%N) :: print_N (Z.to_N (Z.abs e)).

Definition print_num (n : jsnum) : list N :=
  (if num_neg n then [45%N] else []) ++ print_N (num_mant n) ++ print_exponent (num_exp n).

(** ** Strings *)

Definition hex_digit (d : N) : N := if (d <? 10)%N then (48 + d)%N else (87 + d)%N.

Definition unicode_escape (c : N) : list N :=
  [92; 117; hex_digit (c / 4096); hex_digit ((c / 256) mod 16);
   hex_digit ((c / 16) mod 16); hex_digit (c mod 16)]%N.

Definition is_high_surrogate (c : N) : bool := bool_decide (55296 ≤ c ≤ 56319)%N.
Definition is_low_surrogate (c : N) : bool := bool_decide (56320 ≤ c ≤ 57343)%N.

(** One code unit that is not part of a surrogate pair. *)
Definition quote_unit (c : N) : list N :=
  if bool_decide (c = 8)%N then [92; 98]%N
  else if bool_decide (c = 9)%N then [92; 116]%N
  else if bool_decide (c = 10)%N then [92; 110]%N
  else if bool_decide (c = 12)%N then [92; 102]%N
  else if bool_decide (c = 13)%N then [92; 114]%N
  else if bool_decide (c = 34)%N then [92; 34]%N
  else if bool_decide (c = 92)%N then [92; 92]%N
  else if bool_decide (c < 32)%N || is_high_surrogate c || is_low_surrogate c
  then unicode_escape c
  else [c].

(** The body of a quoted string (QuoteJSONString without its quotes). *)
Fixpoint quote_units (s : list N) : list N :=
  match s with
  | [] => []
  | c :: r =>
      match r with
      | d :: r' =>
          if is_high_surrogate c && is_low_surrogate d then c :: d :: quote_units r'
          else quote_unit c ++ quote_units r
      | [] => quote_unit c
      end
  end.

Definition quote_string (s : list N) : list N := 34%N :: quote_units s ++ [34%N].

(** SerializeJSONProperty on a number (ECMA-262 25.5.2.2, step 9):
    [null] when it is not finite, else [Number::toString], which writes
    [-0] (and every literal that rounds to a zero) as [0]. *)
Definition num_zero : jsnum := JsNum false 0 0.

Definition print_number (n : jsnum) : list N :=
  if num_overflows n then lit_null
  else print_num (if num_is_zero n then num_zero else n).

(** ** Values *)

Definition is_undefined (v : jsval) : bool :=
  match v with JUndefined => true | _ => false end.

(** [print v]: the JSON text of [v]; [first] tells whether a separating
    comma is due before the next element or member. *)
Fixpoint print (v : jsval) : list N :=
  match v with
  | JUndefined | JNull => lit_null
  | JBool true => lit_true
  | JBool false => lit_false
  | JNum n => print_number n
  | JStr s => quote_string s
  | JArr l =>
      let fix elems (first : bool) (l : list jsval) : list N :=
        match l with
        | [] => []
        | x :: l' => (if first then [] else [44%N]) ++ print x ++ elems false l'
        end in
      91%N :: elems true l ++ [93%N]
  | JObj fs =>
      let fix members (first : bool) (fs : list (list N * jsval)) : list N :=
        match fs with
        | [] => []
        | (k, x) :: fs' =>
            if is_undefined x then members first fs'
            else (if first then [] else [44%N]) ++ quote_string k ++ [58%N] ++ print x
                   ++ members false fs'
        end in
      123%N :: members true fs ++ [125%N]
  end.

(** The separated elements and members as top-level functions, the same
    as the local fixpoints of [print]. *)
Fixpoint print_elems (first : bool) (l : list jsval) : list N :=
  match l with
  | [] => []
  | x :: l' => (if first then [] else [44%N]) ++ print x ++ print_elems false l'
  end.

Fixpoint print_members (first : bool) (fs : list (list N * jsval)) : list N :=
  match fs with
  | [] => []
  | (k, x) :: fs' =>
      if is_undefined x then print_members first fs'
      else (if first then [] else [44%N]) ++ quote_string k ++ [58%N] ++ print x
             ++ print_members false fs'
  end.

(** [JSON.stringify(v)]: no text for [undefined]. *)
Definition stringify (v : jsval) : option (list N) :=
  if is_undefined v then None else Some (print v).

(** [JSON.parse(JSON.stringify(v))]: the value read back, with infinite
    numbers as [null] and zeros as [0]. *)
Fixpoint json_norm (v : jsval) : jsval :=
  match v with
  | JNum n => if num_overflows n then JNull else JNum (if num_is_zero n then num_zero else n)
  | JArr l => JArr (map json_norm l)
  | JObj fs => JObj (map (λ kv, (kv.1, json_norm kv.2)) fs)
  | _ => v
  end.

(** Values that [JSON.parse] can return: no [undefined] anywhere. *)
Fixpoint wf (v : jsval) : bool :=
  match v with
  | JUndefined => false
  | JArr l => forallb wf l
  | JObj fs => forallb (λ kv, wf kv.2) fs
  | _ => true
  end.

(** The nesting size that bounds the parser's fuel: one per value, one per
    element or member. *)
Fixpoint jsize (v : jsval) : nat :=
  match v with
  | JArr l => S (list_sum (map (λ x, S (jsize x)) l))
  | JObj fs => S (list_sum (map (λ kv, S (jsize kv.2)) fs))
  | _ => 1
  end.

Definition lsize (l : list jsval) : nat := list_sum (map (λ x, S (jsize x)) l).
Definition msize (fs : list (list N * jsval)) : nat := list_sum (map (λ kv, S (jsize kv.2)) fs).

(** Values whose strings and keys are 8-bit code units, the ones the
    storage of the model holds. *)
Definition byte_units (s : list N) : bool := forallb (λ c, c <? 256)%N s.

Fixpoint bytes (v : jsval) : bool :=
  match v with
  | JStr s => byte_units s
  | JArr l => forallb bytes l
  | JObj fs => forallb (λ kv, byte_units kv.1 && bytes kv.2) fs
  | _ => true
  end.

(** A stored string from code units (the storage of the model holds
    8-bit code units). *)
Definition string_of_units (l : list N) : string :=
  String.string_of_list_ascii (map ascii_of_N l).

(** ** Reading back what was printed: numbers *)

(** [bd_lia] settles every [bool_decide] of the goal that [lia] decides. *)
Ltac bd_lia :=
  repeat match goal with
  | |- context [bool_decide ?P] =>
      (rewrite (bool_decide_true P) by lia) || (rewrite (bool_decide_false P) by lia)
  end.

(** [stops rest]: [rest] cannot continue a number literal, as every
    separator after a printed value ([,], [\]], [}] or the end) does. *)
Definition stops (rest : list N) : bool :=
  match rest with
  | [] => true
  | c :: _ => negb (is_digit c || bool_decide (c = 46 ∨ c = 101 ∨ c = 69)%N)
  end.

Lemma digits_value_snoc (ds : list N) (d : N) :
  digits_value (ds ++ [d]) = (digits_value ds * 10 + (d - 48))%N.
Proof. unfold digits_value. by rewrite fold_left_app. Qed.

Lemma span_digits_app (ds rest : list N) :
  Forall (λ c, is_digit c = true) ds ->
  match rest with c :: _ => is_digit c = false | [] => True end ->
  span_digits (ds ++ rest) = (ds, rest).
Proof.
  induction 1 as [|c ds Hc _ IH]; simpl; intros Hr.
  - destruct rest as [|c rest]; simpl; [done|]. by rewrite Hr.
  - rewrite Hc, IH by done. done.
Qed.

Lemma size_nat_pow2 (n : N) : (n < 2 ^ N.of_nat (N.size_nat n))%N.
Proof.
  destruct n as [|p]; [simpl; lia|]. simpl.
  induction p as [p IH|p IH|]; simpl; [| |lia];
    rewrite Nat2N.inj_succ, N.pow_succ_r';
    [change (N.pos p~1) with (2 * N.pos p + 1)%N | change (N.pos p~0) with (2 * N.pos p)%N];
    lia.
Qed.

(** What [dec_digits] produces when its fuel is enough: the digits of [n],
    a single [0] for zero and no leading zero otherwise. *)
Lemma dec_digits_spec (f : nat) (n : N) :
  (n < 2 ^ N.of_nat f)%N ->
  let l := dec_digits f n in
  Forall (λ c, is_digit c = true) l ∧ digits_value l = n ∧
  (n = 0%N -> l = [48%N]) ∧ (n ≠ 0%N -> ∃ c l', l = c :: l' ∧ c ≠ 48%N).
Proof.
  revert n. induction f as [|f IH]; intros n Hn; simpl.
  - assert (n = 0%N) as -> by (simpl in Hn; lia). split_and!; try done.
    repeat constructor.
  - destruct (n <? 10)%N eqn:H10.
    + apply N.ltb_lt in H10. split_and!.
      * constructor; [|done]. unfold is_digit. apply bool_decide_true. lia.
      * unfold digits_value; simpl. lia.
      * intros ->. done.
      * intros ?. eexists _, []. split; [done|lia].
    + apply N.ltb_ge in H10.
      assert (n / 10 < 2 ^ N.of_nat f)%N.
      { apply N.Div0.div_lt_upper_bound. rewrite Nat2N.inj_succ, N.pow_succ_r' in Hn. lia. }
      destruct (IH (n / 10)%N) as (Hd & Hv & _ & Hh); [done|].
      split_and!.
      * apply Forall_app; split; [done|]. constructor; [|done].
        unfold is_digit. apply bool_decide_true. pose proof (N.mod_lt n 10 ltac:(lia)).
        remember (n mod 10)%N. lia.
      * rewrite digits_value_snoc, Hv. pose proof (N.Div0.div_mod n 10).
        remember (n mod 10)%N. remember (n / 10)%N. lia.
      * lia.
      * intros _. destruct Hh as (c & l' & -> & ?); [|by eexists _, _].
        assert (n / 10 ≠ 0)%N; [|done]. apply N.div_str_pos_iff in H10; lia.
Qed.

Lemma print_N_spec (n : N) :
  let l := print_N n in
  Forall (λ c, is_digit c = true) l ∧ digits_value l = n ∧
  (n = 0%N -> l = [48%N]) ∧ (n ≠ 0%N -> ∃ c l', l = c :: l' ∧ c ≠ 48%N).
Proof. apply dec_digits_spec, size_nat_pow2. Qed.

Lemma pfraction_absent (l : list N) :
  match l with c :: _ => c ≠ 46%N | [] => True end -> pfraction l = Some ([], l).
Proof. destruct l; simpl; [done|]. intros. by rewrite bool_decide_false. Qed.

Lemma print_N_nonempty (n : N) : print_N n ≠ [].
Proof.
  destruct (print_N_spec n) as (_ & _ & H0 & H1).
  destruct (decide (n = 0%N)) as [E|E]; [by rewrite H0|].
  by destruct (H1 E) as (? & ? & -> & _).
Qed.

Lemma stops_no_digit (rest : list N) :
  stops rest = true -> match rest with c :: _ => is_digit c = false | [] => True end.
Proof. destruct rest; simpl; [done|]. by intros [? _]%negb_true_iff%orb_false_iff. Qed.

Lemma stops_no_mark (rest : list N) :
  stops rest = true -> match rest with c :: _ => ¬ (c = 46 ∨ c = 101 ∨ c = 69)%N | [] => True end.
Proof.
  destruct rest; simpl; [done|].
  intros Hr. apply negb_true_iff, orb_false_iff in Hr as [_ Hr].
  by apply bool_decide_eq_false in Hr.
Qed.

Lemma pexponent_print (e : Z) (rest : list N) :
  stops rest = true -> pexponent (print_exponent e ++ rest) = Some (e, rest).
Proof.
  intros Hr. unfold print_exponent. case_bool_decide as He.
  - subst. apply stops_no_mark in Hr.
    destruct rest as [|c rest]; simpl; [done|]. by rewrite bool_decide_false by tauto.
  - destruct (print_N_spec (Z.to_N (Z.abs e))) as (Hd & Hv & _).
    pose proof (print_N_nonempty (Z.to_N (Z.abs e))).
    apply stops_no_digit in Hr.
    cbn [app pexponent]. rewrite (bool_decide_true (101 = 101 ∨ 101 = 69)%N) by lia.
    destruct (decide (e < 0)%Z); bd_lia; cbn beta iota; rewrite span_digits_app, bool_decide_false, Hv by done;
      do 2 f_equal; lia.
Qed.

Lemma exponent_head (e : Z) (rest : list N) :
  stops rest = true ->
  match print_exponent e ++ rest with
  | c :: _ => is_digit c = false ∧ c ≠ 46%N
  | [] => True
  end.
Proof.
  intros Hr. unfold print_exponent. case_bool_decide.
  - pose proof (stops_no_digit _ Hr). pose proof (stops_no_mark _ Hr).
    destruct rest; simpl in *; naive_solver.
  - simpl. unfold is_digit. bd_lia. done.
Qed.

Lemma pint_print (m : N) (X : list N) :
  match X with c :: _ => is_digit c = false | [] => True end ->
  pint (print_N m ++ X) = Some (print_N m, X).
Proof.
  intros Hx. destruct (print_N_spec m) as (Hd & _ & H0 & H1).
  destruct (decide (m = 0%N)) as [->|Hm].
  - rewrite H0 by done. simpl. by bd_lia.
  - destruct (H1 Hm) as (c & l' & Hl & Hc). rewrite Hl in Hd |- *.
    apply Forall_cons in Hd as [Hcd Hd]. simpl.
    by rewrite bool_decide_false, Hcd, span_digits_app by done.
Qed.

Lemma print_N_head (m : N) (X : list N) :
  match print_N m ++ X with c :: _ => c ≠ 45%N | [] => False end.
Proof.
  destruct (print_N_spec m) as (Hd & _). pose proof (print_N_nonempty m).
  destruct (print_N m) as [|c l]; [done|]. apply Forall_cons in Hd as [Hd _].
  unfold is_digit in Hd. case_bool_decide; [simpl; lia|done].
Qed.

(** Reading a number literal that [print_num] wrote. *)
Lemma pnumber_print (n : jsnum) (rest : list N) :
  stops rest = true -> pnumber (print_num n ++ rest) = Some (n, rest).
Proof.
  intros Hr. destruct n as [neg m e]. unfold print_num, pnumber; cbn [num_neg num_mant num_exp].
  pose proof (exponent_head e rest Hr) as Hx. pose proof (pexponent_print e rest Hr) as He.
  pose proof (print_N_head m (print_exponent e ++ rest)) as Hc.
  destruct (print_N_spec m) as (_ & Hv & _).
  set (X := print_exponent e ++ rest) in *. rewrite <-!app_assoc. fold X.
  assert (pint (print_N m ++ X) = Some (print_N m, X)) as Hi.
  { apply pint_print. destruct X; [done|]. apply Hx. }
  assert (pfraction X = Some ([], X)) as Hf.
  { apply pfraction_absent. destruct X; [done|]. apply Hx. }
  destruct neg; cbn [app].
  - bd_lia. cbn beta iota. by rewrite Hi, Hf, He, app_nil_r, Hv, Z.sub_0_r.
  - destruct (print_N m ++ X) as [|c r] eqn:Hl; [done|].
    rewrite bool_decide_false by done. cbn beta iota.
    by rewrite Hi, Hf, He, app_nil_r, Hv, Z.sub_0_r.
Qed.

(** ** Reading back what was printed: strings *)

Lemma hex_value_digit (d : N) : (d < 16)%N -> hex_value (hex_digit d) = Some d.
Proof.
  intros Hd. unfold hex_digit, hex_value. destruct (N.ltb_spec d 10); bd_lia; f_equal; lia.
Qed.

Lemma hex4_escape (c : N) :
  (c < 65536)%N ->
  hex4 (hex_digit (c / 4096)) (hex_digit ((c / 256) mod 16)) (hex_digit ((c / 16) mod 16))
       (hex_digit (c mod 16)) = Some c.
Proof.
  intros Hc. unfold hex4.
  assert (c / 256 = c / 16 / 16)%N as E1 by by rewrite N.Div0.div_div.
  assert (c / 4096 = c / 16 / 16 / 16)%N as E2 by by rewrite !N.Div0.div_div.
  assert (c / 4096 < 16)%N by (apply N.Div0.div_lt_upper_bound; lia).
  rewrite !hex_value_digit by (done || apply N.mod_lt; lia). rewrite E1, E2 in *. f_equal.
  pose proof (N.Div0.div_mod c 16). pose proof (N.Div0.div_mod (c / 16) 16).
  pose proof (N.Div0.div_mod (c / 16 / 16) 16).
  remember (c mod 16)%N. remember (c / 16 mod 16)%N. remember (c / 16 / 16 mod 16)%N.
  remember (c / 16 / 16 / 16)%N. remember (c / 16 / 16)%N. remember (c / 16)%N. lia.
Qed.

(** Each code unit's quoted form reads back as that unit. *)
Lemma pstring_quote_unit (c : N) (l : list N) :
  pstring (quote_unit c ++ l) = cons_unit c (pstring l).
Proof.
  unfold quote_unit.
  repeat (case_bool_decide; [subst; cbn [app pstring]; unfold simple_escape; by bd_lia|]).
  destruct (bool_decide (c < 32)%N || is_high_surrogate c || is_low_surrogate c) eqn:Hs.
  - assert (c < 65536)%N.
    { unfold is_high_surrogate, is_low_surrogate in Hs.
      repeat (apply orb_true_iff in Hs as [Hs|Hs]); apply bool_decide_eq_true in Hs; lia. }
    cbn [unicode_escape app pstring]. unfold simple_escape. bd_lia. by rewrite hex4_escape.
  - unfold is_high_surrogate, is_low_surrogate in Hs.
    apply orb_false_iff in Hs as [[Hs _]%orb_false_iff _]. apply bool_decide_eq_false in Hs.
    cbn [app pstring]. by bd_lia.
Qed.

Lemma pstring_pair (c d : N) (l : list N) :
  is_high_surrogate c && is_low_surrogate d = true ->
  pstring (c :: d :: l) = cons_unit c (cons_unit d (pstring l)).
Proof.
  unfold is_high_surrogate, is_low_surrogate.
  intros [Hc%bool_decide_eq_true Hd%bool_decide_eq_true]%andb_true_iff.
  cbn [pstring]. by bd_lia.
Qed.

Lemma quote_units_pair (c d : N) (s : list N) :
  quote_units (c :: d :: s) =
  if is_high_surrogate c && is_low_surrogate d then c :: d :: quote_units s
  else quote_unit c ++ quote_units (d :: s).
Proof. reflexivity. Qed.

(** A quoted string reads back as the string, whatever its code units,
    unpaired surrogates included. *)
Lemma pstring_quote (s rest : list N) :
  pstring (quote_units s ++ 34%N :: rest) = Some (s, rest).
Proof.
  induction s as [s IH] using (induction_ltof1 _ (@length N)); unfold ltof in IH.
  destruct s as [|c [|d s]].
  - cbn [pstring quote_units app]. by bd_lia.
  - cbn [quote_units]. by rewrite pstring_quote_unit; cbn [pstring]; bd_lia.
  - rewrite quote_units_pair. destruct (is_high_surrogate c && is_low_surrogate d) eqn:Hp.
    + cbn [app]. rewrite pstring_pair, IH by (done || simpl; lia). done.
    + rewrite <-app_assoc, pstring_quote_unit, IH by (simpl; lia). done.
Qed.

(** ** Reading back what was printed: values *)

Lemma print_arr (l : list jsval) : print (JArr l) = 91%N :: print_elems true l ++ [93%N].
Proof. reflexivity. Qed.

Lemma print_obj (fs : list (list N * jsval)) :
  print (JObj fs) = 123%N :: print_members true fs ++ [125%N].
Proof. reflexivity. Qed.

Lemma jsize_arr (l : list jsval) : jsize (JArr l) = S (lsize l).
Proof. reflexivity. Qed.

Lemma jsize_obj (fs : list (list N * jsval)) : jsize (JObj fs) = S (msize fs).
Proof. reflexivity. Qed.

Lemma lsize_cons (x : jsval) (l : list jsval) : lsize (x :: l) = S (jsize x + lsize l).
Proof. reflexivity. Qed.

Lemma msize_cons (kv : list N * jsval) (fs : list (list N * jsval)) :
  msize (kv :: fs) = S (jsize kv.2 + msize fs).
Proof. reflexivity. Qed.

Lemma print_elems_false (l : list jsval) :
  print_elems false l = match l with [] => [] | _ => 44%N :: print_elems true l end.
Proof. by destruct l. Qed.

Lemma print_members_false (fs : list (list N * jsval)) :
  Forall (λ kv, wf kv.2 = true) fs ->
  print_members false fs = match fs with [] => [] | _ => 44%N :: print_members true fs end.
Proof. destruct 1 as [|[k x] fs Hx _]; [done|]. simpl. by destruct x. Qed.

Lemma print_num_head (n : jsnum) :
  ∃ c r, print_num n = c :: r ∧ (48 ≤ c ≤ 57 ∨ c = 45)%N.
Proof.
  destruct (print_N_spec (num_mant n)) as (Hd & _). pose proof (print_N_nonempty (num_mant n)).
  unfold print_num. destruct (num_neg n); [by eexists _, _; split; [done|lia]|].
  destruct (print_N (num_mant n)) as [|c r]; [done|]. apply Forall_cons in Hd as [Hd _].
  unfold is_digit in Hd. apply bool_decide_eq_true in Hd. eexists _, _. split; [done|lia].
Qed.

(** Every JSON text starts with a character that is neither whitespace nor
    a closing bracket. *)
Lemma print_head (v : jsval) :
  ∃ c r, print v = c :: r ∧ (c = 110 ∨ c = 116 ∨ c = 102 ∨ c = 34 ∨ c = 91 ∨ c = 123 ∨
                             48 ≤ c ≤ 57 ∨ c = 45)%N.
Proof.
  destruct v as [| |[]|n| | |]; try (eexists _, _; split; [done|lia]).
  cbn [print]. unfold print_number. destruct (num_overflows n); [eexists _, _; split; [done|lia]|].
  destruct (print_num_head (if num_is_zero n then num_zero else n)) as (c & r & Hp & Hc).
  exists c, r. split; [done|lia].
Qed.

Lemma skip_ws_print (v : jsval) (l : list N) : skip_ws (print v ++ l) = print v ++ l.
Proof.
  destruct (print_head v) as (c & r & -> & Hc). cbn [app skip_ws]. unfold is_ws. by bd_lia.
Qed.

Lemma expect_print (c : N) (v : jsval) (l : list N) :
  (c = 93 ∨ c = 125)%N -> expect c (skip_ws (print v ++ l)) = None.
Proof.
  intros Hc. rewrite skip_ws_print. destruct (print_head v) as (d & r & -> & Hd).
  cbn [app expect]. by bd_lia.
Qed.

Lemma expect_lit_app (w rest : list N) : expect_lit w (w ++ rest) = Some rest.
Proof. induction w as [|c w IH]; cbn [expect_lit expect app]; [done|]. by bd_lia. Qed.

Lemma wf_defined (v : jsval) : wf v = true -> is_undefined v = false.
Proof. by destruct v. Qed.

Lemma print_members_head (k : list N) (x : jsval) (fs : list (list N * jsval)) :
  is_undefined x = false -> ∃ r, print_members true ((k, x) :: fs) = 34%N :: r.
Proof. intros Hx. cbn [print_members]. rewrite Hx. by eexists. Qed.

Lemma expect_print_elems (c : N) (x : jsval) (l : list jsval) (R : list N) :
  (c = 93 ∨ c = 125)%N -> expect c (skip_ws (print_elems true (x :: l) ++ R)) = None.
Proof. intros. cbn [print_elems app]. rewrite <-app_assoc. by apply expect_print. Qed.

(** [pcompute] runs the parser on the concrete prefix of its input. *)
Ltac pcompute :=
  repeat progress (
    cbn [app pvalue pelems pmembers skip_ws expect expect_lit lit_true lit_false lit_null];
    try unfold is_ws; bd_lia; cbn beta iota).

Section PrintParse.
Variable f : nat.
Hypothesis IHv : ∀ v rest, wf v = true -> jsize v < f -> stops rest = true ->
  pvalue f (print v ++ rest) = POk (json_norm v) rest.
Hypothesis IHe : ∀ l acc rest, Forall (λ x, wf x = true) l -> l ≠ [] -> lsize l < f ->
  pelems f (print_elems true l ++ 93%N :: rest) acc = POk (JArr (rev acc ++ map json_norm l)) rest.
Hypothesis IHm : ∀ fs acc rest, Forall (λ kv, wf kv.2 = true) fs -> fs ≠ [] -> msize fs < f ->
  pmembers f (print_members true fs ++ 125%N :: rest) acc =
    POk (JObj (rev acc ++ map (λ kv, (kv.1, json_norm kv.2)) fs)) rest.

Lemma pvalue_print_step (v : jsval) (rest : list N) :
  wf v = true -> jsize v < S f -> stops rest = true ->
  pvalue (S f) (print v ++ rest) = POk (json_norm v) rest.
Proof.
  intros Hwf Hs Hr. destruct v as [| |[]|m|s|l|fs]; try done.
  - cbn [print json_norm]. unfold print_number. destruct (num_overflows m); [by pcompute|].
    destruct (print_num_head (if num_is_zero m then num_zero else m)) as (c & r & Hp & Hc).
    rewrite Hp. pcompute. by rewrite app_comm_cons, <-Hp, pnumber_print.
  - cbn [print]. unfold quote_string. pcompute. rewrite <-?app_assoc. cbn [app]. by rewrite pstring_quote.
  - destruct l as [|x l]; [by pcompute|]. rewrite print_arr. pcompute.
    rewrite <-app_assoc. cbn [app]. rewrite expect_print_elems by lia.
    apply (IHe (x :: l) [] rest); [by apply forallb_Forall|done|rewrite jsize_arr in Hs; lia].
  - destruct fs as [|[k x] fs]; [by pcompute|]. rewrite print_obj. cbn [app].
    rewrite <-app_assoc.
    simpl in Hwf. apply andb_true_iff in Hwf as [Hx Hwf].
    destruct (print_members_head k x fs) as (r & Hm); [by destruct x|].
    rewrite Hm. pcompute. rewrite app_comm_cons, <-Hm.
    apply (IHm ((k, x) :: fs) [] rest); [|done|rewrite jsize_obj in Hs; lia].
    constructor; [done|by apply forallb_Forall].
Qed.

Lemma pelems_print_step (l acc : list jsval) (rest : list N) :
  Forall (λ x, wf x = true) l -> l ≠ [] -> lsize l < S f ->
  pelems (S f) (print_elems true l ++ 93%N :: rest) acc = POk (JArr (rev acc ++ map json_norm l)) rest.
Proof.
  intros Hwf Hne Hs. destruct l as [|x l]; [done|].
  apply Forall_cons in Hwf as [Hx Hwf]. rewrite lsize_cons in Hs.
  cbn [print_elems app]. rewrite <-app_assoc. cbn [pelems].
  rewrite IHv by (done || lia || by rewrite print_elems_false; destruct l).
  rewrite print_elems_false. destruct l as [|y l]; pcompute; [done|].
  rewrite IHe by (done || simpl in *; lia). cbn [rev]. by rewrite <-app_assoc.
Qed.

Lemma pmembers_print_step (fs acc : list (list N * jsval)) (rest : list N) :
  Forall (λ kv, wf kv.2 = true) fs -> fs ≠ [] -> msize fs < S f ->
  pmembers (S f) (print_members true fs ++ 125%N :: rest) acc =
    POk (JObj (rev acc ++ map (λ kv, (kv.1, json_norm kv.2)) fs)) rest.
Proof.
  intros Hwf Hne Hs. destruct fs as [|[k x] fs]; [done|].
  apply Forall_cons in Hwf as [Hx Hwf]. rewrite msize_cons in Hs. simpl in Hx, Hs.
  cbn [print_members]. rewrite wf_defined by done. unfold quote_string. cbn [app].
  rewrite <-!app_assoc. pcompute. rewrite pstring_quote. pcompute.
  rewrite <-app_assoc, IHv by (done || lia || by rewrite print_members_false; destruct fs).
  rewrite print_members_false by done. destruct fs as [|kv fs]; pcompute; [done|].
  rewrite IHm by (done || simpl in *; lia). cbn [rev]. by rewrite <-app_assoc.
Qed.
End PrintParse.

(** Parsing a printed value gives it back, with enough fuel; elements and
    members likewise. *)
Lemma print_parse (n : nat) :
  (∀ v rest, wf v = true -> jsize v < n -> stops rest = true ->
     pvalue n (print v ++ rest) = POk (json_norm v) rest) ∧
  (∀ l acc rest, Forall (λ x, wf x = true) l -> l ≠ [] -> lsize l < n ->
     pelems n (print_elems true l ++ 93%N :: rest) acc = POk (JArr (rev acc ++ map json_norm l)) rest) ∧
  (∀ fs acc rest, Forall (λ kv, wf kv.2 = true) fs -> fs ≠ [] -> msize fs < n ->
     pmembers n (print_members true fs ++ 125%N :: rest) acc =
       POk (JObj (rev acc ++ map (λ kv, (kv.1, json_norm kv.2)) fs)) rest).
Proof.
  induction n as [|f (IHv & IHe & IHm)]; [split_and!; intros; lia|].
  split_and!; [apply pvalue_print_step | apply pelems_print_step | apply pmembers_print_step];
    done.
Qed.


(** ** The fuel [json_parse] gives is enough for a printed value *)

Lemma elems_size (l : list jsval) :
  Forall (λ x, jsize x ≤ length (print x)) l ->
  lsize l ≤ length (print_elems false l) ∧ lsize l ≤ S (length (print_elems true l)).
Proof.
  induction 1 as [|x l Hx _ [IH1 IH2]]; [split; simpl; unfold lsize; simpl; lia|].
  rewrite lsize_cons. cbn [print_elems]. rewrite !length_app. simpl. lia.
Qed.

Lemma members_size (fs : list (list N * jsval)) :
  Forall (λ kv, wf kv.2 = true ∧ jsize kv.2 ≤ length (print kv.2)) fs ->
  msize fs ≤ length (print_members false fs) ∧ msize fs ≤ S (length (print_members true fs)).
Proof.
  induction 1 as [|[k x] fs [Hw Hx] _ [IH1 IH2]]; [split; simpl; unfold msize; simpl; lia|].
  rewrite msize_cons. cbn [print_members]. rewrite wf_defined by done.
  unfold quote_string. simpl in *. rewrite !length_app in *. simpl in *. rewrite length_app. lia.
Qed.

Lemma print_size (v : jsval) : wf v = true -> jsize v ≤ length (print v).
Proof.
  induction v using jsval_nested_ind; intros Hwf; try done.
  - simpl; lia.
  - match goal with b : bool |- _ => destruct b end; simpl; lia.
  - match goal with n : jsnum |- _ => destruct (print_head (JNum n)) as (c & r & Hp & _) end.
    rewrite Hp. simpl. lia.
  - simpl. lia.
  - match goal with IH : Forall _ ?l |- jsize (JArr ?l) ≤ _ =>
      rewrite jsize_arr, print_arr; simpl in Hwf; apply forallb_Forall in Hwf;
      destruct (elems_size l) as [_ Hsz];
      [rewrite Forall_forall in IH, Hwf |- *; naive_solver|] end.
    simpl. rewrite length_app. simpl. lia.
  - match goal with IH : Forall _ ?fs |- jsize (JObj ?fs) ≤ _ =>
      rewrite jsize_obj, print_obj; simpl in Hwf; apply forallb_Forall in Hwf;
      destruct (members_size fs) as [_ Hsz];
      [rewrite Forall_forall in IH, Hwf |- *; naive_solver|] end.
    simpl. rewrite length_app. simpl. lia.
Qed.

(** [JSON.parse] reads back what [JSON.stringify] wrote. *)
Lemma json_parse_units_print (v : jsval) :
  wf v = true -> json_parse_units (print v) = Some (json_norm v).
Proof.
  intros Hwf. unfold json_parse_units. pose proof (print_size v Hwf).
  destruct (print_parse (2 * length (print v) + 1)) as (Hp & _).
  rewrite <-(app_nil_r (print v)) at 2. rewrite Hp by (done || lia). done.
Qed.

(** ** Printed text fits the storage's code units *)

Lemma hex_digit_byte (d : N) : (d < 16)%N -> (hex_digit d < 256)%N.
Proof. unfold hex_digit. destruct (d <? 10)%N; lia. Qed.

Lemma quote_unit_bytes (c : N) : (c < 256)%N -> Forall (λ u, u < 256)%N (quote_unit c).
Proof.
  intros Hc. unfold quote_unit.
  repeat (case_bool_decide; [repeat constructor; lia|]).
  destruct (_ || _); [|by repeat constructor].
  unfold unicode_escape. assert (c / 4096 = 0)%N as -> by (apply N.div_small; lia).
  repeat constructor; try lia; apply hex_digit_byte; try lia; apply N.mod_lt; lia.
Qed.

Lemma quote_units_bytes (s : list N) :
  Forall (λ u, u < 256)%N s -> Forall (λ u, u < 256)%N (quote_units s).
Proof.
  induction s as [s IH] using (induction_ltof1 _ (@length N)); unfold ltof in IH.
  destruct s as [|c [|d s]]; intros Hs; [done| |].
  - apply Forall_cons in Hs as [Hc _]. by apply quote_unit_bytes.
  - rewrite quote_units_pair. apply Forall_cons in Hs as [Hc Hs].
    pose proof Hs as [Hd Hs']%Forall_cons.
    destruct (_ && _); [constructor; [done|constructor; [done|apply IH; [simpl; lia|done]]]|].
    apply Forall_app. split; [by apply quote_unit_bytes|apply IH; [simpl; lia|done]].
Qed.

Lemma print_N_bytes (n : N) : Forall (λ u, u < 256)%N (print_N n).
Proof.
  destruct (print_N_spec n) as (Hd & _). eapply Forall_impl; [done|].
  intros c Hc. unfold is_digit in Hc. apply bool_decide_eq_true in Hc. lia.
Qed.

Lemma print_num_bytes (n : jsnum) : Forall (λ u, u < 256)%N (print_num n).
Proof.
  unfold print_num. apply Forall_app. split; [destruct (num_neg n); repeat constructor; lia|].
  apply Forall_app. split; [apply print_N_bytes|]. unfold print_exponent.
  case_bool_decide; [constructor|]. constructor; [lia|].
  constructor; [case_bool_decide; lia|]. apply print_N_bytes.
Qed.

Lemma quote_string_bytes (s : list N) :
  byte_units s = true -> Forall (λ u, u < 256)%N (quote_string s).
Proof.
  intros Hs. unfold quote_string. constructor; [lia|]. apply Forall_app. split; [|repeat constructor; lia].
  apply quote_units_bytes. apply forallb_Forall in Hs. eapply Forall_impl; [done|].
  intros c. apply N.ltb_lt.
Qed.

Lemma print_bytes (v : jsval) : bytes v = true -> Forall (λ u, u < 256)%N (print v).
Proof.
  induction v using jsval_nested_ind; intros Hb;
    try (destruct_or?; repeat constructor; lia); simpl in Hb.
  - match goal with b : bool |- _ => destruct b end; repeat constructor; lia.
  - cbn [print]. unfold print_number.
    destruct (num_overflows _); [repeat constructor; lia|apply print_num_bytes].
  - by apply quote_string_bytes.
  - rewrite print_arr. constructor; [lia|]. apply Forall_app. split; [|repeat constructor; lia].
    apply forallb_Forall in Hb. generalize true. revert Hb.
    match goal with IH : Forall _ _ |- _ => induction IH as [|x l Hx _ IHl] end;
      intros Hb b; [done|].
    apply Forall_cons in Hb as [Hbx Hb]. cbn [print_elems]. rewrite !Forall_app.
    split_and!; [destruct b; repeat constructor; lia|by apply Hx|by apply IHl].
  - rewrite print_obj. constructor; [lia|]. apply Forall_app. split; [|repeat constructor; lia].
    apply forallb_Forall in Hb. generalize true. revert Hb.
    match goal with IH : Forall _ _ |- _ => induction IH as [|[k x] fs Hx _ IHl] end;
      intros Hb b; [done|].
    apply Forall_cons in Hb as [[Hk Hbx]%andb_true_iff Hb]. cbn [print_members].
    destruct (is_undefined x); [by apply IHl|]. rewrite !Forall_app.
    split_and!; [destruct b; repeat constructor; lia|by apply quote_string_bytes|
                 repeat constructor; lia|by apply Hx|by apply IHl].
Qed.

Lemma units_string_of_units (l : list N) :
  Forall (λ u, u < 256)%N l -> units (string_of_units l) = l.
Proof.
  intros Hl. unfold units, string_of_units. rewrite String.list_ascii_of_string_of_list_ascii.
  rewrite map_map. induction Hl as [|c l Hc _ IH]; [done|]. simpl. rewrite IH.
  by rewrite N_ascii_embedding.
Qed.

(** Round trip: [JSON.parse] of the text [JSON.stringify] writes gives
    the value back, for every value with no [undefined] inside whose
    strings are byte strings. *)
Lemma json_parse_stringify (v : jsval) :
  wf v = true -> bytes v = true ->
  stringify v = Some (print v) ∧ json_parse (string_of_units (print v)) = Some (json_norm v).
Proof.
  intros Hwf Hb. split; [by unfold stringify; rewrite wf_defined|].
  unfold json_parse. rewrite units_string_of_units by by apply print_bytes.
  by apply json_parse_units_print.
Qed.
