(* ===== verification/Storage.v ===== *)
(** * The Web Storage interface ([localStorage])

    The header reads [localStorage.getItem] (lines 44, 48, 73, 79) and
    calls [localStorage.removeItem] (lines 92, 99).  [localStorage] is the
    browser's; this file states what the header relies on as a type class,
    [WebStorage], with its laws, [WebStorageLaws], following the HTML
    standard: [getItem] returns the string stored under a key or [null],
    [setItem] overwrites it, [removeItem] deletes it and leaves the other
    keys alone.  The component's theorems are proved against these laws.
    A [gmap] instance (the one the witnesses run on) discharges them.
    Storages are compared up to [storage_equiv] (every key reads the
    same), with the [Proper] instances that let [setoid_rewrite] work up
    to it. *)

From S2P Require Import Prelude.

Class WebStorage (S : Type) := {
  getItem : S -> string -> option string;
  setItem : S -> string -> string -> S;
  removeItem : S -> string -> S;
}.

Class WebStorageLaws (S : Type) `{WebStorage S} := {
  getItem_setItem_eq s k v : getItem (setItem s k v) k = Some v;
  getItem_setItem_ne s k k' v : k ≠ k' -> getItem (setItem s k v) k' = getItem s k';
  getItem_removeItem_eq s k : getItem (removeItem s k) k = None;
  getItem_removeItem_ne s k k' : k ≠ k' -> getItem (removeItem s k) k' = getItem s k';
}.

(** The storage keys of the header ([headers.component.ts], lines 44, 48,
    73, 79, 92, 99). *)
Definition key_admin : string := "admin".
Definition key_customer : string := "customer".
Definition key_localCart : string := "localCart".

(** Two storages are equivalent when every key reads the same. *)
Definition storage_equiv {S} `{WebStorage S} (s1 s2 : S) : Prop :=
  ∀ k, getItem s1 k = getItem s2 k.

(** ** A [gmap] storage *)

#[export] Instance gmap_storage : WebStorage (gmap string string) := {|
  getItem s k := s !! k;
  setItem s k v := <[k:=v]> s;
  removeItem s k := delete k s;
|}.

Lemma storage_keys_distinct :
  key_admin ≠ key_customer ∧ key_admin ≠ key_localCart ∧ key_customer ≠ key_localCart.
Proof. split_and!; discriminate. Qed.

Section Equiv.
Context {S : Type} `{WebStorageLaws S}.

#[export] Instance storage_equiv_equivalence : Equivalence (@storage_equiv S _).
Proof.
  split; unfold storage_equiv.
  - by intros s k.
  - by intros s1 s2 E k.
  - intros s1 s2 s3 E1 E2 k. by rewrite E1, E2.
Qed.

#[export] Instance getItem_proper :
  Proper (storage_equiv ==> eq ==> eq) (@getItem S _).
Proof. intros s1 s2 E k ? <-. apply E. Qed.

#[export] Instance setItem_proper :
  Proper (storage_equiv ==> eq ==> eq ==> storage_equiv) (@setItem S _).
Proof.
  intros s1 s2 E k ? <- v ? <- k'.
  destruct (decide (k = k')) as [<-|Hne].
  - by rewrite !getItem_setItem_eq.
  - by rewrite !getItem_setItem_ne.
Qed.

#[export] Instance removeItem_proper :
  Proper (storage_equiv ==> eq ==> storage_equiv) (@removeItem S _).
Proof.
  intros s1 s2 E k ? <- k'.
  destruct (decide (k = k')) as [<-|Hne].
  - by rewrite !getItem_removeItem_eq.
  - by rewrite !getItem_removeItem_ne.
Qed.
End Equiv.

#[export] Instance gmap_storage_laws : WebStorageLaws (gmap string string).
Proof.
  split; simpl; intros.
  - apply lookup_insert_eq.
  - by apply lookup_insert_ne.
  - apply lookup_delete_eq.
  - by apply lookup_delete_ne.
Qed.

