(* ===== verification/Headers.v ===== *)
(** * [HeadersComponent]

    The class of [src/src/app/headers/headers.component.ts].  The record
    [header] holds its five public fields (lines 16-28).  The record [world]
    adds what the methods act on outside the object: the storage, whether
    [ngOnInit] ran and which of its two subscriptions are open, the service
    requests still in flight (each subscription to [getUser] or
    [searchProducts] waits for its response), the calls made to the
    collaborators in order, and the errors reported by callbacks that threw.

    Every method and every callback is one definition in the completion
    monad [M], statement by statement:
    - [on_router_event]: the router subscription's callback (lines 41-70);
    - [on_seller_user], [on_customer_user]: the [getUser] callbacks
      (lines 53-56, 60-63);
    - [on_cart_length]: the [cartDataLength] callback (lines 85-87);
    - [ngOnInit] (lines 39-88);
    - [onCustomerLogout], [onSellerLogout], [onSearch], [searchProduct],
      [on_search_results] (its callback, lines 112-117), [hideSearch],
      [redirectToDetails] (lines 91-129).

    The collaborators are not in [src/] and are modelled from the spec:
    [router.navigate] and the service calls append to [calls];
    [getUser] and [searchProducts] also register a pending request whose
    response the runtime ([Runtime]) delivers later; [cartDataLength.emit]
    is an Angular [EventEmitter], which calls its subscribers at once. *)

From S2P Require Import Prelude JsString Json JsonParse Storage.

(** ** Data *)

(** The fields of the component (lines 16-28).  [cartCount] is declared
    [number] but receives [JSON.parse(cartData).length], which is any
    JavaScript value: it is kept as one. *)
Record header := mk_header {
  menuType : string;
  userName : string;
  isHidden : bool;
  searchResults : option (list jsval);
  cartCount : jsval;
}.

(** Field initialisers (lines 16, 19, 22, 25, 28). *)
Definition header_init : header := {|
  menuType := "default";
  userName := "";
  isHidden := false;
  searchResults := None;
  cartCount := JNum (num_of_nat 0);
|}.

(** The part of a router event the callback reads: its [url], absent on
    events that carry none. *)
Record router_event := mk_router_event { ev_url : option string }.

(** The answer of [getUser] ([{ username: string }] in the spec). *)
Record user_response := mk_user_response { username : string }.

(** A subscription waiting for its response. *)
Inductive request :=
  | ReqSellerUser (data : jsval)
  | ReqCustomerUser (data : jsval)
  | ReqSearch (query : string).

(** A call from the component to a collaborator. *)
Inductive call :=
  | CallNavigate (commands : list string)
  | CallSellerGetUser (data : jsval)
  | CallCustomerGetUser (data : jsval)
  | CallSearchProducts (query : string)
  | CallGetCartCount
  | CallEmitCartLength (payload : list jsval).

Section Component.
Context {St : Type} `{WebStorage St}.

Record world := mk_world {
  hdr : header;
  store : St;
  inited : bool;
  router_sub : bool;
  cart_sub : bool;
  pending : gmap nat request;
  next_id : nat;
  calls : list call;
  errors : list js_error;
}.

Definition world_init (s : St) : world :=
  mk_world header_init s false false false ∅ 0 [] [].

Abbreviation M := (comp world js_error).

(** ** Updating the world *)

Definition set_hdr (f : header -> header) (w : world) : world :=
  mk_world (f (hdr w)) (store w) (inited w) (router_sub w) (cart_sub w)
           (pending w) (next_id w) (calls w) (errors w).
Definition set_store (s : St) (w : world) : world :=
  mk_world (hdr w) s (inited w) (router_sub w) (cart_sub w)
           (pending w) (next_id w) (calls w) (errors w).
Definition set_subs (i r c : bool) (w : world) : world :=
  mk_world (hdr w) (store w) i r c (pending w) (next_id w) (calls w) (errors w).
Definition set_pending (p : gmap nat request) (n : nat) (w : world) : world :=
  mk_world (hdr w) (store w) (inited w) (router_sub w) (cart_sub w)
           p n (calls w) (errors w).
Definition add_call (c : call) (w : world) : world :=
  mk_world (hdr w) (store w) (inited w) (router_sub w) (cart_sub w)
           (pending w) (next_id w) (calls w ++ [c]) (errors w).
Definition add_error (e : js_error) (w : world) : world :=
  mk_world (hdr w) (store w) (inited w) (router_sub w) (cart_sub w)
           (pending w) (next_id w) (calls w) (errors w ++ [e]).

Definition with_menuType (m : string) (h : header) : header :=
  mk_header m (userName h) (isHidden h) (searchResults h) (cartCount h).
Definition with_userName (u : string) (h : header) : header :=
  mk_header (menuType h) u (isHidden h) (searchResults h) (cartCount h).
Definition with_searchResults (r : option (list jsval)) (h : header) : header :=
  mk_header (menuType h) (userName h) (isHidden h) r (cartCount h).
Definition with_cartCount (c : jsval) (h : header) : header :=
  mk_header (menuType h) (userName h) (isHidden h) (searchResults h) c.

(** ** The collaborators' operations *)

Definition local_getItem (k : string) : M (option string) :=
  fun w => Normal (getItem (store w) k) w.
Definition local_removeItem (k : string) : M unit :=
  modify (fun w => set_store (removeItem (store w) k) w).
Definition navigate (commands : list string) : M unit :=
  modify (add_call (CallNavigate commands)).
Definition getCartCount : M unit := modify (add_call CallGetCartCount).

(** Subscribing to a service call: the call is made and its callback
    waits under a fresh id. *)
Definition issue (c : call) (r : request) (w : world) : world :=
  add_call c (set_pending (<[next_id w := r]> (pending w)) (S (next_id w)) w).
Definition subscribe_request (c : call) (r : request) : M unit :=
  modify (issue c r).

(** [v && JSON.parse(v)] on the result of [getItem] (lines 45, 49):
    [null] and the empty string are falsy and returned as they are. *)
Definition and_parse (o : option string) : M jsval :=
  match o with
  | None => ret JNull
  | Some "" => ret (JStr [])
  | Some s => JSON_parse s
  end.

(** The truthiness of what [getItem] returned (lines 74, 80). *)
Definition item_truthy (o : option string) : bool :=
  match o with None | Some "" => false | Some _ => true end.

(** The truthiness of [res.url] (line 42). *)
Definition url_of (ev : router_event) : option string :=
  match ev_url ev with Some "" | None => None | Some u => Some u end.

(** ** The callbacks and methods *)

(** Lines 53-56. *)
Definition on_seller_user (res : user_response) : M unit :=
  modify (set_hdr (with_userName (username res)));;;
  modify (set_hdr (with_menuType "seller")).

(** Lines 60-63. *)
Definition on_customer_user (res : user_response) : M unit :=
  modify (set_hdr (with_userName (username res)));;;
  modify (set_hdr (with_menuType "customer")).

(** Lines 41-70: the router subscription's callback. *)
Definition on_router_event (ev : router_event) : M unit :=
  match url_of ev with
  | None => ret tt
  | Some url =>
      sellerStore <- local_getItem key_admin;;
      sellerData <- and_parse sellerStore;;
      customerStore <- local_getItem key_customer;;
      customerData <- and_parse customerStore;;
      if truthy sellerData && includes url products_marker then
        subscribe_request (CallSellerGetUser sellerData) (ReqSellerUser sellerData)
      else if truthy customerData then
        subscribe_request (CallCustomerGetUser customerData) (ReqCustomerUser customerData)
      else
        modify (set_hdr (with_menuType "default"))
  end.

(** Lines 85-87: [this.cartCount = res.length]. *)
Definition on_cart_length (res : list jsval) : M unit :=
  n <- read_length (JArr res);;
  modify (set_hdr (with_cartCount n)).

(** [cartDataLength.emit(payload)]: an [EventEmitter] runs the callback
    of its subscriber synchronously. *)
Definition emit_cart_length (payload : list jsval) : M unit :=
  modify (add_call (CallEmitCartLength payload));;;
  w <- get;;
  if cart_sub w then on_cart_length payload else ret tt.

(** Lines 39-88. *)
Definition ngOnInit : M unit :=
  modify (fun w => set_subs true true (cart_sub w) w);;;
  cartData <- local_getItem key_localCart;;
  (match cartData with
   | Some s =>
       if item_truthy cartData then
         v <- JSON_parse s;;
         n <- read_length v;;
         modify (set_hdr (with_cartCount n))
       else ret tt
   | None => ret tt
   end);;;
  user <- local_getItem key_customer;;
  (if item_truthy user then getCartCount else ret tt);;;
  modify (fun w => set_subs (inited w) (router_sub w) true w).

(** Lines 91-95. *)
Definition onCustomerLogout : M unit :=
  local_removeItem key_customer;;;
  navigate [root_route];;;
  emit_cart_length [].

(** Lines 98-101. *)
Definition onSellerLogout : M unit :=
  local_removeItem key_admin;;;
  navigate [root_route].

(** Lines 104-106. *)
Definition onSearch (searchVal : string) : M unit :=
  navigate [search_route searchVal].

(** Lines 109-119: the event is present (truthy) or not; its target's
    value is the query. *)
Definition searchProduct (queryEventData : option string) : M unit :=
  match queryEventData with
  | Some value => subscribe_request (CallSearchProducts value) (ReqSearch value)
  | None => ret tt
  end.

(** Lines 112-117: the callback of [searchProducts]; assigning
    [res.length = 5] drops the elements past the fifth. *)
Definition on_search_results (res : list jsval) : M unit :=
  let res' := if decide (5 < length res) then take 5 res else res in
  modify (set_hdr (with_searchResults (Some res'))).

(** Lines 122-124. *)
Definition hideSearch : M unit :=
  modify (set_hdr (with_searchResults None)).

(** Lines 127-129. *)
Definition redirectToDetails (productId : string) : M unit :=
  navigate [details_route productId].

End Component.

Arguments world St : clear implicits.

(** ** The abstract menu

    The spec's table (section 8, first property): the seller menu when a
    seller session exists and the URL contains "products", else the
    customer menu when a customer session exists, else the default. *)

Inductive menu := MenuDefault | MenuSeller | MenuCustomer.

Definition menu_name (m : menu) : string :=
  match m with
  | MenuDefault => "default"
  | MenuSeller => "seller"
  | MenuCustomer => "customer"
  end.

Definition spec_menu (seller customer products : bool) : menu :=
  if seller && products then MenuSeller
  else if customer then MenuCustomer
  else MenuDefault.

(** The value of [v && JSON.parse(v)] for the result [v] of [getItem];
    [None] when [JSON.parse] throws. *)
Definition marker (o : option string) : option jsval :=
  match o with
  | None => Some JNull
  | Some "" => Some (JStr [])
  | Some s => json_parse s
  end.

(** Whether a stored marker counts as a session, as the router callback
    decides it; [None] when the marker is not valid JSON. *)
Definition session (o : option string) : option bool := truthy <$> marker o.

(** The count [ngOnInit] reads from a stored cart snapshot:
    [JSON.parse(cartData).length], [None] when either step throws. *)
Definition snapshot_length (c : string) : option jsval :=
  json_parse c ≫= get_length.

Section ComponentFacts.
Context {St : Type} `{WebStorageLaws St}.
Implicit Types (w : world St).

Lemma and_parse_spec (o : option string) w :
  and_parse o w =
  match marker o with Some v => Normal v w | None => Throw SyntaxError w end.
Proof.
  unfold and_parse, marker, JSON_parse.
  destruct o as [[|c s]|]; [done| |done].
  by destruct (json_parse (String c s)).
Qed.

Lemma local_getItem_spec (k : string) w : local_getItem k w = Normal (getItem (store w) k) w.
Proof. reflexivity. Qed.

End ComponentFacts.

(** [step_reads] runs the storage reads and parses of a handler whose
    results are given by hypotheses. *)
Ltac step_reads :=
  cbv [bind ret];
  repeat first
    [ rewrite local_getItem_spec
    | rewrite and_parse_spec
    | match goal with H : marker _ = _ |- _ => rewrite H end ].

Section RouterFacts.
Context {St : Type} `{WebStorageLaws St}.
Implicit Types (w : world St).

(** The router callback's decision table, used by the runtime's
    theorems. *)
Lemma on_router_event_table (ev : router_event) (url : string) w (sd cd : jsval) :
  url_of ev = Some url ->
  marker (getItem (store w) key_admin) = Some sd ->
  marker (getItem (store w) key_customer) = Some cd ->
  on_router_event ev w =
    Normal tt
      (match spec_menu (truthy sd) (truthy cd) (includes url products_marker) with
       | MenuSeller => issue (CallSellerGetUser sd) (ReqSellerUser sd) w
       | MenuCustomer => issue (CallCustomerGetUser cd) (ReqCustomerUser cd) w
       | MenuDefault => set_hdr (with_menuType (menu_name MenuDefault)) w
       end).
Proof.
  intros Hurl Hsd Hcd. unfold on_router_event. rewrite Hurl. step_reads.
  unfold spec_menu. by destruct (truthy sd), (includes url products_marker), (truthy cd).
Qed.

(** [C1] The router callback on an event with a URL follows the spec's
    table: when both markers parse, it asks the seller service when
    the seller marker is truthy and the URL contains "products", else
    the customer service when the customer marker is truthy, and else
    sets the default menu at once, changing nothing else. *)
Theorem on_router_event_decision (ev : router_event) (url : string) w (sd cd : jsval) :
  url_of ev = Some url ->
  marker (getItem (store w) key_admin) = Some sd ->
  marker (getItem (store w) key_customer) = Some cd ->
  on_router_event ev w =
    Normal tt
      (match spec_menu (truthy sd) (truthy cd) (includes url products_marker) with
       | MenuSeller => issue (CallSellerGetUser sd) (ReqSellerUser sd) w
       | MenuCustomer => issue (CallCustomerGetUser cd) (ReqCustomerUser cd) w
       | MenuDefault => set_hdr (with_menuType (menu_name MenuDefault)) w
       end).
Proof. apply on_router_event_table. Qed.

(** Events without a (truthy) URL are ignored. *)
Lemma on_router_event_no_url (ev : router_event) w :
  url_of ev = None -> on_router_event ev w = Normal tt w.
Proof. intros Hurl. unfold on_router_event. by rewrite Hurl. Qed.

(** A marker that is not valid JSON makes the callback throw. *)
Lemma on_router_event_throws (ev : router_event) (url : string) w :
  url_of ev = Some url ->
  (marker (getItem (store w) key_admin) = None \/
   marker (getItem (store w) key_customer) = None) ->
  on_router_event ev w = Throw SyntaxError w.
Proof.
  intros Hurl Hbad. unfold on_router_event. rewrite Hurl. step_reads.
  destruct (marker (getItem (store w) key_admin)) eqn:Ha; step_reads; [|done].
  destruct Hbad as [Hbad|Hbad]; [congruence|]. by rewrite Hbad.
Qed.

(** [C5] Both markers are parsed before either is tested: when either
    is not valid JSON, the router callback throws a [SyntaxError] and
    leaves the world as it was, whatever the URL and the other marker;
    a seller on a "products" URL with a valid seller marker gets no
    menu update when the customer marker is malformed. *)
Theorem on_router_event_syntax_error (ev : router_event) (url : string) w :
  url_of ev = Some url ->
  (marker (getItem (store w) key_admin) = None \/
   marker (getItem (store w) key_customer) = None) ->
  on_router_event ev w = Throw SyntaxError w.
Proof. apply on_router_event_throws. Qed.

(** The router callback writes only [menuType] (and registers requests):
    the user name, the search results, the cart count and the storage
    are the same after it, whether it completes or throws. *)
Lemma on_router_event_frame (ev : router_event) w :
  let w' := final_state (on_router_event ev w) in
  userName (hdr w') = userName (hdr w) ∧
  searchResults (hdr w') = searchResults (hdr w) ∧
  cartCount (hdr w') = cartCount (hdr w) ∧
  store w' = store w.
Proof.
  cbv zeta. unfold on_router_event. destruct (url_of ev) as [url|]; [|by split_and!].
  step_reads. destruct (marker (getItem (store w) key_admin)) as [sd|]; [|by split_and!].
  step_reads. destruct (marker (getItem (store w) key_customer)) as [cd|]; [|by split_and!].
  simpl. destruct (truthy sd), (includes url products_marker), (truthy cd); by split_and!.
Qed.

End RouterFacts.

Section MethodFacts.
Context {St : Type} `{WebStorageLaws St}.
Implicit Types (w : world St).

(** ** The search box *)

Lemma on_search_results_take (res : list jsval) w :
  on_search_results res w =
  Normal tt (set_hdr (with_searchResults (Some (take 5 res))) w).
Proof. unfold on_search_results. by rewrite take_when_longer. Qed.

(** [C12] The search callback keeps the first five results in their
    order: the list it stores has [min 5 n] elements for [n] results, is
    a prefix of them, and is all of them when there are at most five. *)
Theorem on_search_results_bounds (res : list jsval) w :
  ∃ w' r, on_search_results res w = Normal tt w' ∧
    searchResults (hdr w') = Some r ∧
    length r = min 5 (length res) ∧
    r `prefix_of` res ∧
    (length res ≤ 5 -> r = res).
Proof.
  rewrite on_search_results_take. eexists _, (take 5 res). split_and!; [done..| | |].
  - by rewrite length_take.
  - apply prefix_take.
  - intros. by apply take_ge.
Qed.

(** [hideSearch] clears the results whatever they were. *)
Lemma hideSearch_spec w :
  hideSearch w = Normal tt (set_hdr (with_searchResults None) w).
Proof. reflexivity. Qed.

(** ** Logging out *)

(** The effects of customer logout, used by the runtime's theorems. *)
Lemma onCustomerLogout_effects w :
  ∃ w', onCustomerLogout w = Normal tt w' ∧
    getItem (store w') key_customer = None ∧
    (∀ k, k ≠ key_customer -> getItem (store w') k = getItem (store w) k) ∧
    calls w' = calls w ++ [CallNavigate [root_route]; CallEmitCartLength []] ∧
    cartCount (hdr w') = (if cart_sub w then JNum (num_of_nat 0) else cartCount (hdr w)) ∧
    menuType (hdr w') = menuType (hdr w) ∧
    userName (hdr w') = userName (hdr w).
Proof.
  unfold onCustomerLogout, emit_cart_length, on_cart_length, read_length. mrun.
  destruct (cart_sub w); eexists; (split; [reflexivity|]); simpl;
    rewrite getItem_removeItem_eq, <-app_assoc;
    split_and!; try done; intros k Hk; by apply getItem_removeItem_ne.
Qed.

(** [C9] Customer logout removes the [customer] entry and no other,
    navigates to the root, then broadcasts an empty cart, which the
    header's own subscription (when [ngOnInit] opened it) turns into a
    cart count of 0; the menu and the user name are not touched. *)
Theorem onCustomerLogout_spec w :
  ∃ w', onCustomerLogout w = Normal tt w' ∧
    getItem (store w') key_customer = None ∧
    (∀ k, k ≠ key_customer -> getItem (store w') k = getItem (store w) k) ∧
    calls w' = calls w ++ [CallNavigate [root_route]; CallEmitCartLength []] ∧
    cartCount (hdr w') = (if cart_sub w then JNum (num_of_nat 0) else cartCount (hdr w)) ∧
    menuType (hdr w') = menuType (hdr w) ∧
    userName (hdr w') = userName (hdr w).
Proof. apply onCustomerLogout_effects. Qed.

(** The effects of seller logout, used by the runtime's theorems. *)
Lemma onSellerLogout_effects w :
  ∃ w', onSellerLogout w = Normal tt w' ∧
    getItem (store w') key_admin = None ∧
    (∀ k, k ≠ key_admin -> getItem (store w') k = getItem (store w) k) ∧
    calls w' = calls w ++ [CallNavigate [root_route]] ∧
    hdr w' = hdr w ∧
    (router_sub w', cart_sub w', pending w', next_id w') =
      (router_sub w, cart_sub w, pending w, next_id w).
Proof.
  unfold onSellerLogout. mrun. eexists. split; [reflexivity|]. simpl.
  rewrite getItem_removeItem_eq. split_and!; try done.
  intros k Hk. by apply getItem_removeItem_ne.
Qed.

(** [C10] Seller logout removes the [admin] entry and no other and
    navigates to the root; it leaves every field of the header, the
    cart count included, as it was. *)
Theorem onSellerLogout_spec w :
  ∃ w', onSellerLogout w = Normal tt w' ∧
    getItem (store w') key_admin = None ∧
    (∀ k, k ≠ key_admin -> getItem (store w') k = getItem (store w) k) ∧
    calls w' = calls w ++ [CallNavigate [root_route]] ∧
    hdr w' = hdr w.
Proof.
  destruct (onSellerLogout_effects w) as (w' & ? & ? & ? & ? & ? & _).
  by exists w'.
Qed.

End MethodFacts.

Lemma json_parse_empty : json_parse "" = None.
Proof. reflexivity. Qed.

Section InitFacts.
Context {St : Type} `{WebStorageLaws St}.
Implicit Types (w : world St).

Lemma item_truthy_parsed (c : string) (v : jsval) :
  json_parse c = Some v -> item_truthy (Some c) = true.
Proof. by destruct c. Qed.

(** [ngOnInit] on a readable snapshot, used by the runtime's theorems. *)
Lemma ngOnInit_reads_snapshot w (c : string) (n : jsval) :
  getItem (store w) key_localCart = Some c ->
  snapshot_length c = Some n ->
  ∃ w', ngOnInit w = Normal tt w' ∧
    cartCount (hdr w') = n ∧ router_sub w' = true ∧ cart_sub w' = true ∧
    calls w' = calls w ++
      (if item_truthy (getItem (store w) key_customer) then [CallGetCartCount] else []) ∧
    menuType (hdr w') = menuType (hdr w).
Proof.
  intros Hc Hn. unfold snapshot_length in Hn.
  destruct (json_parse c) as [v|] eqn:Hv; [|done]. simpl in Hn.
  unfold ngOnInit, JSON_parse, read_length. mrun.
  rewrite Hc, (item_truthy_parsed c v Hv), Hv, Hn. simpl.
  destruct (item_truthy (getItem (store w) key_customer)); simpl;
    eexists; (split; [reflexivity|]); simpl; by rewrite ?app_nil_r.
Qed.

(** [C6] With a readable cart snapshot, [ngOnInit] opens both
    subscriptions, sets the cart count to the snapshot's [length], and
    asks the shop service for the server count exactly when the raw
    [customer] entry is a non-empty string. *)
Theorem ngOnInit_snapshot w (c : string) (n : jsval) :
  getItem (store w) key_localCart = Some c ->
  snapshot_length c = Some n ->
  ∃ w', ngOnInit w = Normal tt w' ∧
    cartCount (hdr w') = n ∧ router_sub w' = true ∧ cart_sub w' = true ∧
    calls w' = calls w ++
      (if item_truthy (getItem (store w) key_customer) then [CallGetCartCount] else []) ∧
    menuType (hdr w') = menuType (hdr w).
Proof. apply ngOnInit_reads_snapshot. Qed.

(** Without a snapshot (no [localCart] entry, or an empty one) the cart
    count keeps its value. *)
Lemma ngOnInit_no_snapshot w :
  item_truthy (getItem (store w) key_localCart) = false ->
  ∃ w', ngOnInit w = Normal tt w' ∧
    cartCount (hdr w') = cartCount (hdr w) ∧ router_sub w' = true ∧ cart_sub w' = true ∧
    calls w' = calls w ++
      (if item_truthy (getItem (store w) key_customer) then [CallGetCartCount] else []).
Proof.
  intros Hc. unfold ngOnInit. mrun.
  destruct (getItem (store w) key_localCart) as [[|a s]|]; simpl in *; try done;
    destruct (item_truthy (getItem (store w) key_customer)); simpl;
    eexists; (split; [reflexivity|]); simpl; by rewrite ?app_nil_r.
Qed.

(** [ngOnInit] on an unreadable snapshot, used by the runtime's
    theorems. *)
Lemma ngOnInit_throws_on_snapshot w (c : string) :
  getItem (store w) key_localCart = Some c -> c ≠ "" ->
  snapshot_length c = None ->
  ∃ e w', ngOnInit w = Throw e w' ∧
    router_sub w' = true ∧ cart_sub w' = cart_sub w ∧
    calls w' = calls w ∧ hdr w' = hdr w.
Proof.
  intros Hc Hne Hn. unfold snapshot_length in Hn.
  unfold ngOnInit, JSON_parse, read_length. mrun. rewrite Hc.
  replace (item_truthy (Some c)) with true by (destruct c; done).
  destruct (json_parse c) as [v|]; simpl in Hn |- *.
  - rewrite Hn. by eexists _, _.
  - by eexists _, _.
Qed.

(** [C7] A cart snapshot that is not valid JSON, or whose value is
    [null], makes [ngOnInit] throw after the router subscription and
    before the rest: the cart count is not set, the server count is not
    requested even for a logged-in customer, and the cart subscription
    is never opened, so later cart broadcasts are lost. *)
Theorem ngOnInit_bad_snapshot w (c : string) :
  getItem (store w) key_localCart = Some c -> c ≠ "" ->
  snapshot_length c = None ->
  ∃ e w', ngOnInit w = Throw e w' ∧
    router_sub w' = true ∧ cart_sub w' = cart_sub w ∧
    calls w' = calls w ∧ hdr w' = hdr w.
Proof. apply ngOnInit_throws_on_snapshot. Qed.

End InitFacts.

Section Divergences.
Context {St : Type} `{WebStorageLaws St}.
Implicit Types (w : world St).

(** [C15] [ngOnInit] tests the raw [customer] string (line 80) where the
    router callback tests its parsed value (line 59): a stored customer
    marker whose JSON value is falsy (such as "null", "false" or "0")
    is no customer session for the menu, yet [ngOnInit] asks the shop
    service for a customer's server cart count. *)
Theorem customer_marker_raw_vs_parsed w (s : string) (v : jsval) :
  getItem (store w) key_customer = Some s ->
  json_parse s = Some v -> truthy v = false ->
  item_truthy (getItem (store w) key_localCart) = false ->
  session (getItem (store w) key_customer) = Some false ∧
  ∃ w', ngOnInit w = Normal tt w' ∧ calls w' = calls w ++ [CallGetCartCount].
Proof.
  intros Hs Hv Hf Hc. split.
  - unfold session, marker. rewrite Hs.
    destruct s as [|a s]; [by rewrite json_parse_empty in Hv|].
    rewrite Hv. simpl. by rewrite Hf.
  - destruct (ngOnInit_no_snapshot w Hc) as (w' & Hi & _ & _ & _ & Hcalls).
    exists w'. split; [done|]. rewrite Hcalls, Hs.
    by rewrite (item_truthy_parsed s v Hv).
Qed.

End Divergences.
