(* ===== verification/Runtime.v ===== *)
(** * The header in its event loop

    Angular runs the component one callback at a time.  Between callbacks
    the browser and the collaborators deliver inputs in any order: router
    events, answers of the identity and search services (each to the
    subscription that asked, in any order, or an HTTP error), cart
    broadcasts from the shop service, user actions from the template, and
    storage changes made by the login pages.  [step] runs one input; a
    callback that throws has its error reported (RxJS reports errors thrown
    by a subscriber without closing the subscription, Angular's
    [ErrorHandler] those of [ngOnInit] and template handlers) and keeps the
    assignments made before the throw.  [reachable] is the set of worlds
    the header can reach from its construction on a given storage.  The
    theorems: the invariant of reachable worlds, the refinement of the
    spec's menu table and the interleavings that break it, end-to-end
    logout scenarios, the cart count frozen by a bad snapshot or refining
    the spec's latest-broadcast count, at most one server cart request,
    the type of [cartCount]. *)

From S2P Require Import Prelude JsString Json JsonParse Storage Headers.

Inductive input :=
  | IInit
  | IRouter (ev : router_event)
  | IUserResponse (id : nat) (res : user_response)
  | ISearchResponse (id : nat) (res : list jsval)
  | IRequestError (id : nat)
  | ICartBroadcast (payload : list jsval)
  | ICustomerLogout
  | ISellerLogout
  | ISearch (searchVal : string)
  | IKeyUp (queryEventData : option string)
  | IHideSearch
  | IRedirect (productId : string)
  | IStorageSet (k v : string)
  | IStorageRemove (k : string).

(** ** The invariant of reachable worlds *)

Definition is_menu (m : string) : Prop :=
  m = "default" ∨ m = "seller" ∨ m = "customer".

Definition header_ok (h : header) : Prop :=
  is_menu (menuType h) ∧
  (∀ r, searchResults h = Some r -> length r ≤ 5).

(** The menu an identity request will set when its answer arrives. *)
Definition request_menu (r : request) : option menu :=
  match r with
  | ReqSellerUser _ => Some MenuSeller
  | ReqCustomerUser _ => Some MenuCustomer
  | ReqSearch _ => None
  end.

Section Runtime.
Context {St : Type} `{WebStorage St}.
Implicit Types (w : world St).
Local Abbreviation M := (comp (world St) js_error).

(** Run a callback to completion; a throw is reported. *)
Definition run_handler {A} (m : M A) w : world St :=
  match m w with
  | Normal _ w' => w'
  | Throw e w' => add_error e w'
  end.

(** A response retires its request. *)
Definition retire (id : nat) w : world St :=
  set_pending (delete id (pending w)) (next_id w) w.

Definition step (i : input) w : world St :=
  match i with
  | IInit => if inited w then w else run_handler ngOnInit w
  | IRouter ev => if router_sub w then run_handler (on_router_event ev) w else w
  | IUserResponse id res =>
      match pending w !! id with
      | Some (ReqSellerUser _) => run_handler (on_seller_user res) (retire id w)
      | Some (ReqCustomerUser _) => run_handler (on_customer_user res) (retire id w)
      | _ => w
      end
  | ISearchResponse id res =>
      match pending w !! id with
      | Some (ReqSearch _) => run_handler (on_search_results res) (retire id w)
      | _ => w
      end
  | IRequestError id => retire id w
  | ICartBroadcast p => if cart_sub w then run_handler (on_cart_length p) w else w
  | ICustomerLogout => run_handler onCustomerLogout w
  | ISellerLogout => run_handler onSellerLogout w
  | ISearch v => run_handler (onSearch v) w
  | IKeyUp q => run_handler (searchProduct q) w
  | IHideSearch => run_handler hideSearch w
  | IRedirect id => run_handler (redirectToDetails id) w
  | IStorageSet k v => set_store (setItem (store w) k v) w
  | IStorageRemove k => set_store (removeItem (store w) k) w
  end.

Definition run (inputs : list input) w : world St :=
  fold_left (fun w i => step i w) inputs w.

(** The step relation and the worlds reachable from a construction. *)
Inductive step_rel : world St -> world St -> Prop :=
  | step_by i w : step_rel w (step i w).

Inductive reachable (s0 : St) : world St -> Prop :=
  | reach_init : reachable s0 (world_init s0)
  | reach_step w w' : reachable s0 w -> step_rel w w' -> reachable s0 w'.

(** The header is well formed, request ids are fresh below [next_id],
    and the cart subscription is opened only after the router one,
    which only [ngOnInit] opens. *)
Definition world_inv w : Prop :=
  header_ok (hdr w) ∧
  (∀ id r, pending w !! id = Some r -> id < next_id w) ∧
  (cart_sub w = true -> router_sub w = true) ∧
  (router_sub w = true -> inited w = true).

(** After [ngOnInit] ran without opening the cart subscription, the
    cart count stays [c]. *)
Definition cart_frozen (c : jsval) w : Prop :=
  inited w = true ∧ cart_sub w = false ∧ cartCount (hdr w) = c.

(** Every cart snapshot the storage holds has a number as its length
    (or cannot be read at all), as an array snapshot has. *)
Definition snapshot_typed (s : St) : Prop :=
  ∀ c n, getItem s key_localCart = Some c -> snapshot_length c = Some n -> is_number n = true.

(** The spec's cart count (section 3, second invariant): the length of
    the latest broadcast, customer logout broadcasting the empty cart. *)
Definition cart_spec (c : jsval) (i : input) : jsval :=
  match i with
  | ICartBroadcast p => JNum (num_of_nat (length p))
  | ICustomerLogout => JNum (num_of_nat 0)
  | _ => c
  end.

(** How many times the server cart count was requested. *)
Definition is_fetch (c : call) : bool := match c with CallGetCartCount => true | _ => false end.
Definition cart_fetches w : nat := length (List.filter is_fetch (calls w)).

(** ** Invariants of callbacks, compositionally *)

(** [preserves P m]: running [m] from a world satisfying [P] ends,
    normally or by a throw, in a world satisfying [P]. *)
Definition preserves {A} (P : world St -> Prop) (m : M A) : Prop :=
  ∀ w, P w -> P (final_state (m w)).

Lemma preserves_ret {A} P (a : A) : preserves P (ret a).
Proof. by intros w. Qed.

Lemma preserves_throw {A} P e : preserves P (@throw _ _ A e).
Proof. by intros w. Qed.

Lemma preserves_get P : preserves P get.
Proof. by intros w. Qed.

Lemma preserves_modify P f : (∀ w, P w -> P (f w)) -> preserves P (modify f).
Proof. intros Hf w. apply Hf. Qed.

Lemma preserves_bind {A B} P (m : M A) (k : A -> M B) :
  preserves P m -> (∀ a, preserves P (k a)) -> preserves P (bind m k).
Proof.
  intros Hm Hk w Hw. unfold bind. specialize (Hm w Hw).
  destruct (m w) as [a w'|e w']; [by apply Hk|done].
Qed.

Lemma preserves_if {A} P (b : bool) (m1 m2 : M A) :
  preserves P m1 -> preserves P m2 -> preserves P (if b then m1 else m2).
Proof. by destruct b. Qed.

Lemma preserves_getItem P k : preserves P (local_getItem k).
Proof. by intros w. Qed.

Lemma preserves_run_handler {A} P (m : M A) w :
  (∀ e w, P w -> P (add_error e w)) -> preserves P m -> P w -> P (run_handler m w).
Proof.
  intros He Hm Hw. specialize (Hm w Hw). unfold run_handler.
  destruct (m w); simpl in *; auto.
Qed.
End Runtime.

Create HintDb preserve.
#[export] Hint Resolve preserves_ret preserves_throw preserves_get preserves_bind
  preserves_if : preserve.

(** [preserve_tac] splits a handler into its primitive steps; what is
    left are the state updates, given to [tac]. *)
Ltac preserve_tac tac :=
  repeat match goal with
  | |- preserves _ (bind _ _) => apply preserves_bind; [|intros ?]
  | |- preserves _ (ret _) => apply preserves_ret
  | |- preserves _ (throw _) => apply preserves_throw
  | |- preserves _ get => apply preserves_get
  | |- preserves _ (local_getItem _) => apply preserves_getItem
  | |- preserves _ (modify _) => apply preserves_modify; intros ? ?; tac
  | |- preserves _ (match ?x with _ => _ end) => destruct x
  end.

Ltac unfold_handlers :=
  cbv [on_router_event and_parse JSON_parse read_length on_seller_user on_customer_user
       on_cart_length emit_cart_length onCustomerLogout onSellerLogout onSearch
       searchProduct on_search_results hideSearch redirectToDetails
       local_removeItem navigate getCartCount subscribe_request].

Section Invariant.
Context {St : Type} `{WebStorage St}.
Implicit Types (w : world St).

Lemma world_inv_init (s : St) : world_inv (world_init s).
Proof.
  split_and!; simpl; try done.
  - split; [by left | done].
Qed.

Lemma inv_set_hdr f w :
  (∀ h, header_ok h -> header_ok (f h)) -> world_inv w -> world_inv (set_hdr f w).
Proof. intros Hf (Hh & Hp & Hs & Hr). split_and!; simpl; auto. Qed.

Lemma inv_add_call c w : world_inv w -> world_inv (add_call c w).
Proof. done. Qed.

Lemma inv_add_error e w : world_inv w -> world_inv (add_error e w).
Proof. done. Qed.

Lemma inv_set_store s w : world_inv w -> world_inv (set_store s w).
Proof. done. Qed.

Lemma inv_issue c r w : world_inv w -> world_inv (issue c r w).
Proof.
  intros (Hh & Hp & Hs & Hr). split_and!; simpl; auto.
  intros id r'. rewrite lookup_insert.
  case_decide; [intros; lia|]. intros Hl%Hp. lia.
Qed.

Lemma inv_retire id w : world_inv w -> world_inv (retire id w).
Proof.
  intros (Hh & Hp & Hs & Hr). split_and!; simpl; auto.
  intros id' r. rewrite lookup_delete. case_decide; [done|]. apply Hp.
Qed.

Lemma ok_with_menuType m h : is_menu m -> header_ok h -> header_ok (with_menuType m h).
Proof. by intros ? []. Qed.

Lemma ok_with_userName u h : header_ok h -> header_ok (with_userName u h).
Proof. done. Qed.

Lemma ok_with_cartCount c h : header_ok h -> header_ok (with_cartCount c h).
Proof. done. Qed.

Lemma ok_with_searchResults r h :
  (∀ l, r = Some l -> length l ≤ 5) -> header_ok h -> header_ok (with_searchResults r h).
Proof. by intros ? []. Qed.

End Invariant.

Create HintDb world_inv.
#[export] Hint Resolve inv_add_call inv_add_error inv_set_store inv_issue inv_retire
  ok_with_userName ok_with_cartCount : world_inv.

(** [inv_update] discharges the state updates of a handler. *)
Ltac inv_update :=
  repeat match goal with
  | |- world_inv (set_hdr _ _) => apply inv_set_hdr; [intros ? ?|]
  | |- header_ok (with_menuType _ _) => apply ok_with_menuType; [unfold is_menu; naive_solver|]
  | |- header_ok (with_searchResults _ _) =>
      apply ok_with_searchResults; [intros ? ?; simplify_eq; auto with ui|]
  end; eauto with world_inv.

Section HandlerInvariants.
Context {St : Type} `{WebStorage St}.
Implicit Types (w : world St).

Ltac handler_inv := unfold_handlers; preserve_tac inv_update.

Lemma on_router_event_inv ev : preserves world_inv (@on_router_event St _ ev).
Proof. handler_inv. Qed.

Lemma on_seller_user_inv res : preserves world_inv (@on_seller_user St res).
Proof. handler_inv. Qed.

Lemma on_customer_user_inv res : preserves world_inv (@on_customer_user St res).
Proof. handler_inv. Qed.

Lemma on_cart_length_inv p : preserves world_inv (@on_cart_length St p).
Proof. handler_inv. Qed.

Lemma onCustomerLogout_inv : preserves world_inv (@onCustomerLogout St _).
Proof. handler_inv. Qed.

Lemma onSellerLogout_inv : preserves world_inv (@onSellerLogout St _).
Proof. handler_inv. Qed.

Lemma onSearch_inv v : preserves world_inv (@onSearch St v).
Proof. handler_inv. Qed.

Lemma searchProduct_inv q : preserves world_inv (@searchProduct St q).
Proof. handler_inv. Qed.

Lemma on_search_results_inv res : preserves world_inv (@on_search_results St res).
Proof. handler_inv. all: case_decide; [apply length_take_le | lia]. Qed.

Lemma hideSearch_inv : preserves world_inv (@hideSearch St).
Proof. handler_inv. Qed.

Lemma redirectToDetails_inv id : preserves world_inv (@redirectToDetails St id).
Proof. handler_inv. Qed.

(** [ngOnInit] opens the router subscription in its first statement and
    the cart one in its last: it is checked on its final states. *)
Lemma ngOnInit_inv : preserves world_inv (@ngOnInit St _).
Proof.
  intros w (Hh & Hp & Hs & Hr).
  cbv [ngOnInit JSON_parse read_length getCartCount local_getItem bind ret throw modify].
  repeat case_match; simplify_eq/=; split_and!; auto.
Qed.
End HandlerInvariants.

Section Reachable.
Context {St : Type} `{WebStorage St}.
Implicit Types (w : world St).

Lemma run_handler_inv {A} (m : comp (world St) js_error A) w :
  preserves world_inv m -> world_inv w -> world_inv (run_handler m w).
Proof. intros. apply preserves_run_handler; auto using inv_add_error. Qed.

Lemma step_inv (i : input) w : world_inv w -> world_inv (step i w).
Proof.
  intros Hw. destruct i; simpl;
    repeat case_match; auto using inv_set_store, inv_retire;
    apply run_handler_inv; auto using inv_retire, ngOnInit_inv, on_router_event_inv,
      on_seller_user_inv, on_customer_user_inv, on_cart_length_inv,
      onCustomerLogout_inv, onSellerLogout_inv, onSearch_inv, searchProduct_inv,
      on_search_results_inv, hideSearch_inv, redirectToDetails_inv.
Qed.

Lemma reachable_world_inv (s0 : St) w : reachable s0 w -> world_inv w.
Proof.
  induction 1 as [|w w' _ IH Hstep]; [apply world_inv_init|].
  destruct Hstep. by apply step_inv.
Qed.

(** [C4] In every world the header can reach from its construction,
    the menu is one of "default", "seller", "customer", at most five
    search results are shown, every request in flight has an id below
    [next_id] (so ids are never reused), and the cart subscription is
    open only if the router subscription is, which only [ngOnInit]
    opens. *)
Theorem reachable_inv (s0 : St) w : reachable s0 w -> world_inv w.
Proof. apply reachable_world_inv. Qed.

Lemma run_cons (i : input) (inputs : list input) w :
  run (i :: inputs) w = run inputs (step i w).
Proof. done. Qed.

Lemma reachable_run (s0 : St) (inputs : list input) w :
  reachable s0 w -> reachable s0 (run inputs w).
Proof.
  revert w. induction inputs as [|i inputs IH]; intros w Hw; simpl; [done|].
  apply IH. econstructor; [exact Hw | constructor].
Qed.
End Reachable.

Section Refinement.
Context {St : Type} `{WebStorageLaws St}.
Implicit Types (w : world St).

Lemma pending_fresh w : world_inv w -> pending w !! next_id w = None.
Proof.
  intros (_ & Hp & _). destruct (pending w !! next_id w) as [r|] eqn:E; [|done].
  apply Hp in E. lia.
Qed.

(** Delivering an identity answer to a pending request sets the menu
    that request stands for and the user name it carries. *)
Lemma step_user_response w id r m res :
  pending w !! id = Some r -> request_menu r = Some m ->
  menuType (hdr (step (IUserResponse id res) w)) = menu_name m ∧
  userName (hdr (step (IUserResponse id res) w)) = username res.
Proof.
  intros Hid Hm. simpl. rewrite Hid.
  destruct r; simplify_eq/=; done.
Qed.

(** [C2] Refinement of the spec's menu table under a synchronous
    schedule: in a reachable world whose router subscription is open,
    when a router event with a URL is followed by the answer to the
    request it issued (if any), the menu is the one the spec's table
    gives for the two markers and the URL. *)
Theorem menu_refines_spec_sync (s0 : St) w (ev : router_event) (url : string)
    (sd cd : jsval) (res : user_response) :
  reachable s0 w -> router_sub w = true -> url_of ev = Some url ->
  marker (getItem (store w) key_admin) = Some sd ->
  marker (getItem (store w) key_customer) = Some cd ->
  menuType (hdr (run [IRouter ev; IUserResponse (next_id w) res] w)) =
    menu_name (spec_menu (truthy sd) (truthy cd) (includes url products_marker)).
Proof.
  intros Hr Hsub Hurl Hsd Hcd. apply reachable_world_inv in Hr.
  simpl. rewrite Hsub. unfold run_handler.
  rewrite (on_router_event_table ev url w sd cd Hurl Hsd Hcd).
  destruct (spec_menu _ _ _) eqn:Hm.
  - simpl. by rewrite pending_fresh.
  - apply (step_user_response _ _ (ReqSellerUser sd)); [|done].
    apply lookup_insert_eq.
  - apply (step_user_response _ _ (ReqCustomerUser cd)); [|done].
    apply lookup_insert_eq.
Qed.

(** [C3] Answers are not matched to the navigation that asked for
    them: when an identity request is still in flight, a router event
    for which the spec's table gives the default menu sets it, and the
    late answer then overwrites it with the older request's menu.  The
    menu is then not the spec's function of the latest URL and markers
    (a seller who leaves a "products" page before the seller service
    answers, or a customer who logs out before the customer service
    answers, keeps a seller or customer menu). *)
Theorem stale_identity_response w (ev : router_event) (url : string)
    (sd cd : jsval) (id : nat) (r : request) (m : menu) (res : user_response) :
  router_sub w = true -> url_of ev = Some url ->
  marker (getItem (store w) key_admin) = Some sd ->
  marker (getItem (store w) key_customer) = Some cd ->
  spec_menu (truthy sd) (truthy cd) (includes url products_marker) = MenuDefault ->
  pending w !! id = Some r -> request_menu r = Some m ->
  menuType (hdr (step (IRouter ev) w)) = menu_name MenuDefault ∧
  menuType (hdr (run [IRouter ev; IUserResponse id res] w)) = menu_name m.
Proof.
  intros Hsub Hurl Hsd Hcd Hdef Hid Hm. simpl. rewrite Hsub. unfold run_handler.
  rewrite (on_router_event_table ev url w sd cd Hurl Hsd Hcd), Hdef.
  split; [done|]. by apply (step_user_response _ _ r).
Qed.
End Refinement.

Section Scenarios.
Context {St : Type} `{WebStorageLaws St}.
Implicit Types (w : world St).

(** [C11] Customer logout, followed by the router event of its
    navigation to the root, leaves the default menu, a cart count of 0
    and no [customer] entry, provided both subscriptions are open and
    the seller marker is valid JSON; a seller marker, even a truthy one,
    does not give the seller menu on the root URL. *)
Theorem customer_logout_then_navigation w (ev : router_event) (sd : jsval) :
  router_sub w = true -> cart_sub w = true ->
  marker (getItem (store w) key_admin) = Some sd ->
  url_of ev = Some root_route ->
  let w' := run [ICustomerLogout; IRouter ev] w in
  menuType (hdr w') = menu_name MenuDefault ∧
  cartCount (hdr w') = JNum (num_of_nat 0) ∧
  getItem (store w') key_customer = None.
Proof.
  intros Hr Hc Hsd Hurl. cbv zeta.
  destruct (onCustomerLogout_effects w) as (w1 & Hlog & Hcust & Hother & _ & Hcart & _).
  assert (Hsd1 : marker (getItem (store w1) key_admin) = Some sd).
  { rewrite Hother; [done|]. apply storage_keys_distinct. }
  assert (Hcd1 : marker (getItem (store w1) key_customer) = Some JNull).
  { by rewrite Hcust. }
  assert (Hsub1 : router_sub w1 = true).
  { revert Hlog. unfold onCustomerLogout, emit_cart_length, on_cart_length, read_length.
    mrun. rewrite Hc. intros [=<-]. done. }
  simpl. replace (run_handler onCustomerLogout w) with w1
    by (unfold run_handler; by rewrite Hlog).
  rewrite Hsub1. unfold run_handler. rewrite (on_router_event_table ev root_route w1 sd JNull Hurl Hsd1 Hcd1).
  replace (includes root_route products_marker) with false by reflexivity.
  unfold spec_menu. rewrite andb_false_r. simpl.
  rewrite Hcart, Hc. split_and!; done.
Qed.
(** Logging out keeps the subscriptions. *)
Lemma onCustomerLogout_subs w :
  router_sub (final_state (onCustomerLogout w)) = router_sub w.
Proof.
  cbv [onCustomerLogout emit_cart_length on_cart_length read_length local_removeItem
       navigate bind ret modify get].
  simpl. by destruct (cart_sub w).
Qed.

End Scenarios.

(** ** A cart snapshot that cannot be read *)

Section FrozenCart.
Context {St : Type} `{WebStorageLaws St}.
Implicit Types (w : world St).

Ltac frozen_update := unfold cart_frozen in *; simpl in *; intuition.

Lemma step_frozen (c : jsval) (i : input) w :
  cart_frozen c w -> step i w = w ∨ cart_frozen c (step i w).
Proof.
  intros Hf. pose proof Hf as (Hi & Hcs & Hcc).
  destruct i; simpl; rewrite ?Hi, ?Hcs; try (by left); right;
    repeat case_match; try done;
    try (apply preserves_run_handler; [by intros; frozen_update| |frozen_update]);
    try (by unfold_handlers; preserve_tac frozen_update);
    try frozen_update.
  (* customer logout: the empty broadcast reaches no subscriber *)
  intros w' (Hi' & Hcs' & Hcc').
  cbv [onCustomerLogout emit_cart_length local_removeItem navigate bind ret modify get].
  simpl. rewrite Hcs'. frozen_update.
Qed.

Lemma run_frozen (c : jsval) (inputs : list input) w :
  cart_frozen c w -> cart_frozen c (run inputs w).
Proof.
  revert w. induction inputs as [|i inputs IH]; intros w Hf; simpl; [done|].
  apply IH. by destruct (step_frozen c i w Hf) as [->|?].
Qed.

(** [C8] When the stored cart snapshot is not valid JSON (or is
    [null]), the header constructed on that storage never shows another
    cart count than its initial 0: [ngOnInit] throws before it
    subscribes to [cartDataLength], so whatever inputs follow (server
    counts, logouts, navigation, storage changes), the count is frozen. *)
Theorem bad_snapshot_freezes_cart (s0 : St) (c : string) (inputs : list input) :
  getItem s0 key_localCart = Some c -> c ≠ "" -> snapshot_length c = None ->
  cartCount (hdr (run inputs (step IInit (world_init s0)))) = JNum (num_of_nat 0).
Proof.
  intros Hc Hne Hn.
  destruct (ngOnInit_throws_on_snapshot (world_init s0) c Hc Hne Hn)
    as (e & w1 & Hinit & Hr & Hcs & _ & Hh).
  apply run_frozen. simpl. unfold run_handler. rewrite Hinit.
  unfold cart_frozen. simpl. rewrite Hcs, Hh. split_and!; [|done..].
  revert Hinit. unfold ngOnInit. cbv [bind modify local_getItem].
  simpl. rewrite Hc. replace (item_truthy (Some c)) with true by (by destruct c).
  unfold JSON_parse, read_length, snapshot_length in *.
  destruct (json_parse c); simpl in *; [rewrite Hn|]; cbv; intros [=<- <-]; done.
Qed.
End FrozenCart.

(** ** Interleavings *)

Section Interleaving.
Context {St : Type} `{WebStorageLaws St}.
Implicit Types (w : world St).

(** [C14] The identity answers and the cart broadcasts write disjoint
    fields ([userName] and [menuType] against [cartCount]) and neither
    throws, so they commute: delivering them in either order gives the
    same world. *)
Theorem cart_user_commute w (p : list jsval) (id : nat) (res : user_response) :
  step (ICartBroadcast p) (step (IUserResponse id res) w) =
  step (IUserResponse id res) (step (ICartBroadcast p) w).
Proof.
  destruct (cart_sub w) eqn:Hc, (pending w !! id) as [[]|] eqn:Hp;
    cbn [step]; rewrite ?Hc, ?Hp;
    cbv [run_handler on_cart_length on_seller_user on_customer_user read_length
         retire bind ret modify]; simpl; rewrite ?Hc, ?Hp; reflexivity.
Qed.

Lemma run_search_results (res : list jsval) w :
  run_handler (on_search_results res) w =
  set_hdr (with_searchResults (Some (take 5 res))) w.
Proof. unfold run_handler. by rewrite on_search_results_take. Qed.

(** [C13] The search results shown are those of the last answer to
    arrive, not of the last query typed: with two searches in flight,
    delivering the newer answer first and the older one last leaves the
    older query's results on screen (the race of spec section 4.1). *)
Theorem search_last_answer_wins w (id1 id2 : nat) (q1 q2 : string)
    (res1 res2 : list jsval) :
  id1 ≠ id2 ->
  pending w !! id1 = Some (ReqSearch q1) -> pending w !! id2 = Some (ReqSearch q2) ->
  searchResults (hdr (run [ISearchResponse id2 res2; ISearchResponse id1 res1] w)) =
    Some (take 5 res1).
Proof.
  intros Hne H1 H2. cbn [run fold_left step]. rewrite H2, !run_search_results.
  cbn [pending set_hdr retire set_pending]. rewrite lookup_delete_ne by done.
  by rewrite H1.
Qed.

(** [searchProduct] issues one request per keystroke, under a fresh id. *)
Lemma step_keyup w (value : string) :
  pending (step (IKeyUp (Some value)) w) = <[next_id w := ReqSearch value]> (pending w) ∧
  next_id (step (IKeyUp (Some value)) w) = S (next_id w).
Proof. done. Qed.
Lemma run_searchProduct (q : string) w :
  run_handler (searchProduct (Some q)) w = issue (CallSearchProducts q) (ReqSearch q) w.
Proof. done. Qed.

(** [C26] A failed search leaves stale results (spec section 7): after
    the answer to the query [q1] is shown, the request for the next
    keystroke [q2] fails; the results of [q1] stay on screen, no request
    is left for [q2], and a late answer for it would be dropped. *)
Theorem search_error_keeps_stale w (q1 q2 : string) (r1 r2 : list jsval) :
  let w' := run [IKeyUp (Some q1); ISearchResponse (next_id w) r1; IKeyUp (Some q2);
                 IRequestError (S (next_id w))] w in
  searchResults (hdr w') = Some (take 5 r1) ∧ pending w' !! S (next_id w) = None ∧
  step (ISearchResponse (S (next_id w)) r2) w' = w'.
Proof.
  cbv zeta. rewrite !run_cons. cbn [run fold_left step]. rewrite !run_searchProduct.
  cbn [issue add_call set_pending pending next_id]. rewrite lookup_insert_eq, run_search_results.
  cbn [step retire issue add_call set_pending pending next_id set_hdr hdr searchResults
       with_searchResults].
  split_and!; [done|by rewrite lookup_delete_eq|].
  cbn [step pending retire set_pending]. by rewrite lookup_delete_eq.
Qed.

(** [C28] Hiding the results does not cancel the search in flight
    ([hideSearch], line 123, only clears the field; the subscription of
    line 111 stays open): after a keystroke issues a search and the
    results are hidden, they are absent, yet the late answer to that
    search shows its first five results again. *)
Theorem hidden_results_reappear w (q : string) (r : list jsval) :
  searchResults (hdr (run [IKeyUp (Some q); IHideSearch] w)) = None ∧
  searchResults (hdr (run [IKeyUp (Some q); IHideSearch; ISearchResponse (next_id w) r] w)) =
    Some (take 5 r).
Proof.
  cbn [run fold_left step]. rewrite run_searchProduct.
  unfold run_handler at 2. rewrite hideSearch_spec.
  cbn [issue add_call set_pending set_hdr pending hdr searchResults with_searchResults].
  split; [done|]. rewrite lookup_insert_eq, run_search_results. done.
Qed.

End Interleaving.

(** ** Fields no handler breaks *)

Section Types.
Context {St : Type} `{WebStorage St}.
Implicit Types (w : world St).

(** [step_compute] runs one input to the end, every handler unfolded. *)
Ltac step_compute i :=
  destruct i; cbn [step]; repeat case_match; try done;
  cbv [run_handler ngOnInit on_router_event on_seller_user on_customer_user on_cart_length
       emit_cart_length onCustomerLogout onSellerLogout onSearch searchProduct
       on_search_results hideSearch redirectToDetails local_getItem local_removeItem
       navigate getCartCount subscribe_request and_parse JSON_parse read_length retire
       bind ret throw get modify] in *;
  repeat case_match; simplify_eq/=; try done.

Lemma step_cart_number (i : input) w :
  is_number (cartCount (hdr w)) = true ->
  (i = IInit -> snapshot_typed (store w)) ->
  is_number (cartCount (hdr (step i w))) = true.
Proof.
  intros Hn Hs. step_compute i;
    (eapply Hs; [done|eassumption|unfold snapshot_length; by simplify_option_eq]).
Qed.

(** [C20] [cartCount] keeps its declared TypeScript type [number]
    under every input (router events, answers, broadcasts, logouts,
    storage changes), except at initialisation on a storage whose cart
    snapshot parses to a value whose [length] is not a number (an object,
    a boolean): line 75 assigns an untyped [JSON.parse(...).length]. *)
Theorem cartCount_stays_number (i : input) w :
  is_number (cartCount (hdr w)) = true ->
  (i = IInit -> snapshot_typed (store w)) ->
  is_number (cartCount (hdr (step i w))) = true.
Proof. apply step_cart_number. Qed.

End Types.

(** ** The cart count against the spec *)

Create Rewrite HintDb fetches.

Section CartSpec.
Context {St : Type} `{WebStorage St}.
Implicit Types (w : world St).

Lemma step_cart_spec (i : input) w :
  world_inv w -> cart_sub w = true ->
  cartCount (hdr (step i w)) = cart_spec (cartCount (hdr w)) i ∧ cart_sub (step i w) = true.
Proof.
  intros (_ & _ & Hcr & Hri) Hc. specialize (Hri (Hcr Hc)).
  destruct i; cbn [step]; rewrite ?Hri, ?Hc; repeat case_match; try done;
  cbv [run_handler on_router_event on_seller_user on_customer_user on_cart_length
       emit_cart_length onCustomerLogout onSellerLogout onSearch searchProduct
       on_search_results hideSearch redirectToDetails local_getItem local_removeItem
       navigate getCartCount subscribe_request and_parse JSON_parse read_length retire
       bind ret throw get modify] in *;
  repeat case_match; simplify_eq/=; rewrite ?Hc in *; simplify_eq/=; done.
Qed.

Lemma cart_fetches_add_call c w :
  cart_fetches (add_call c w) = cart_fetches w + (if is_fetch c then 1 else 0).
Proof.
  unfold cart_fetches. cbn [calls add_call]. rewrite List.filter_app, length_app.
  simpl. destruct (is_fetch c); simpl; lia.
Qed.

Lemma cart_fetches_set_hdr f w : cart_fetches (set_hdr f w) = cart_fetches w.
Proof. done. Qed.
Lemma cart_fetches_set_store s w : cart_fetches (set_store s w) = cart_fetches w.
Proof. done. Qed.
Lemma cart_fetches_set_pending p n w : cart_fetches (set_pending p n w) = cart_fetches w.
Proof. done. Qed.
Lemma cart_fetches_set_subs a b c w : cart_fetches (set_subs a b c w) = cart_fetches w.
Proof. done. Qed.
Lemma cart_fetches_add_error e w : cart_fetches (add_error e w) = cart_fetches w.
Proof. done. Qed.

#[local] Hint Rewrite cart_fetches_add_call cart_fetches_set_hdr cart_fetches_set_store
  cart_fetches_set_pending cart_fetches_set_subs cart_fetches_add_error : fetches.

(** [step_unfold] runs one input's handler to its updates of the world. *)
Ltac step_unfold :=
  cbv [run_handler ngOnInit on_router_event on_seller_user on_customer_user on_cart_length
       emit_cart_length onCustomerLogout onSellerLogout onSearch searchProduct
       on_search_results hideSearch redirectToDetails local_getItem local_removeItem
       navigate getCartCount subscribe_request and_parse JSON_parse read_length retire
       issue bind ret throw get modify] in *;
  repeat case_match; simplify_eq/=.

(** After [ngOnInit] no input requests the server cart count. *)
Lemma step_fetches_inited (i : input) w :
  inited w = true -> inited (step i w) = true ∧ cart_fetches (step i w) = cart_fetches w.
Proof.
  intros Hi. destruct i; cbn [step]; rewrite ?Hi; repeat case_match; try done;
    step_unfold; autorewrite with fetches; simpl; rewrite ?Hi; split; lia || done.
Qed.

(** Before it, only [ngOnInit] does, at most once. *)
Lemma step_fetches_fresh (i : input) w :
  inited w = false ->
  (inited (step i w) = false ∧ cart_fetches (step i w) = cart_fetches w) ∨
  (inited (step i w) = true ∧ cart_fetches (step i w) ≤ S (cart_fetches w)).
Proof.
  intros Hi. destruct i; cbn [step]; rewrite ?Hi; repeat case_match; try (by left);
    [right|left..]; step_unfold; autorewrite with fetches; simpl; rewrite ?Hi;
    split; done || lia.
Qed.

Lemma reachable_fetches (s0 : St) w :
  reachable s0 w -> cart_fetches w ≤ 1 ∧ (inited w = false -> cart_fetches w = 0).
Proof.
  induction 1 as [|w w' _ [IH1 IH2] Hstep]; [split; [unfold cart_fetches; simpl; lia|done]|].
  destruct Hstep as [i w]. destruct (inited w) eqn:Hi.
  - destruct (step_fetches_inited i w Hi) as [-> ->]. split; [done|discriminate].
  - destruct (step_fetches_fresh i w Hi) as [[-> ->]|[-> ?]]; [done|].
    rewrite IH2 in * by done. split; [lia|discriminate].
Qed.

Lemma run_fetches_inited (inputs : list input) w :
  inited w = true -> cart_fetches (run inputs w) = cart_fetches w.
Proof.
  revert w. induction inputs as [|i inputs IH]; intros w Hi; [done|].
  destruct (step_fetches_inited i w Hi) as [Hi' Hf]. cbn [run fold_left].
  rewrite <-Hf. by apply IH.
Qed.

Lemma run_cart_spec (inputs : list input) w :
  world_inv w -> cart_sub w = true ->
  cartCount (hdr (run inputs w)) = fold_left cart_spec inputs (cartCount (hdr w)).
Proof.
  revert w. induction inputs as [|i inputs IH]; intros w Hw Hc; [done|].
  destruct (step_cart_spec i w Hw Hc) as [Hcc Hc']. cbn [run fold_left].
  rewrite <-Hcc. apply IH; [by apply step_inv|done].
Qed.

(** [C21] Refinement of the spec's cart count (section 3): once the
    cart subscription is open, whatever inputs follow, in any order
    (router events, identity and search answers, errors, logouts,
    storage changes, a repeated initialisation), the count shown is the
    abstract one: the length of the latest broadcast, customer logout
    counting as the empty broadcast it emits, and the count shown before
    when there was none. *)
Theorem cart_refines_spec (s0 : St) w (inputs : list input) :
  reachable s0 w -> cart_sub w = true ->
  cartCount (hdr (run inputs w)) = fold_left cart_spec inputs (cartCount (hdr w)).
Proof. intros Hr. apply run_cart_spec. by apply reachable_world_inv in Hr. Qed.

(** [C22] The server cart count is requested at most once in the
    component's lifetime (spec section 8, third property, the at most
    part), and never before [ngOnInit] ran: no router event, logout or
    broadcast requests it again. *)
Theorem cart_fetched_at_most_once (s0 : St) w :
  reachable s0 w -> cart_fetches w ≤ 1 ∧ (inited w = false -> cart_fetches w = 0).
Proof. apply reachable_fetches. Qed.

End CartSpec.

Section InitCart.
Context {St : Type} `{WebStorageLaws St}.
Implicit Types (w : world St).

(** A header initialised on a readable snapshot of count [n]: the
    server count is requested once when the raw [customer] entry is
    truthy and never otherwise, and the count follows the broadcasts. *)
Lemma init_cart_flow (s0 : St) (c : string) (n : jsval) (inputs : list input) :
  getItem s0 key_localCart = Some c -> snapshot_length c = Some n ->
  let w := run (IInit :: inputs) (world_init s0) in
  cart_fetches w = (if item_truthy (getItem s0 key_customer) then 1 else 0) ∧
  cartCount (hdr w) = fold_left cart_spec inputs n.
Proof.
  intros Hc Hn. cbv zeta. rewrite run_cons.
  destruct (ngOnInit_reads_snapshot (world_init s0) c n Hc Hn)
    as (w1 & Hinit & Hcc & _ & Hcs & Hcalls & _).
  assert (step IInit (world_init s0) = w1) as Hstep.
  { cbn [step inited world_init]. unfold run_handler. by rewrite Hinit. }
  assert (reachable s0 w1) as Hr.
  { rewrite <-Hstep. apply (reachable_run s0 [IInit]). constructor. }
  destruct (reachable_world_inv s0 w1 Hr) as (_ & _ & Hcr & Hri).
  rewrite Hstep. split.
  - rewrite run_fetches_inited by auto. unfold cart_fetches. rewrite Hcalls.
    by destruct (item_truthy _).
  - rewrite (run_cart_spec inputs w1 (reachable_world_inv s0 w1 Hr) Hcs). by rewrite Hcc.
Qed.

(** [C27] Without a customer session the snapshot count is never
    replaced by a server count (spec section 8, second property): a
    header initialised on a readable snapshot of count [n] with no
    (truthy) [customer] entry never requests the server count, whatever
    inputs follow, and shows [n] until a broadcast (from another part of
    the shop, or a customer logout) replaces it. *)
Theorem snapshot_count_without_customer (s0 : St) (c : string) (n : jsval)
    (inputs : list input) :
  getItem s0 key_localCart = Some c -> snapshot_length c = Some n ->
  item_truthy (getItem s0 key_customer) = false ->
  let w := run (IInit :: inputs) (world_init s0) in
  cart_fetches w = 0 ∧ cartCount (hdr w) = fold_left cart_spec inputs n.
Proof.
  intros Hc Hn Hcu. destruct (init_cart_flow s0 c n inputs Hc Hn) as [Hf Hcc].
  rewrite Hcu in Hf. by split.
Qed.

End InitCart.
