(* ===== verification/Router.v ===== *)
(** * Navigation and the router events it delivers

    [router.events] (line 41) emits every router event of every
    navigation, and the header's callback acts on each one whose [url]
    is truthy (line 42).  A successful navigation in Angular emits, in
    this order, [NavigationStart], [RoutesRecognized], [GuardsCheckStart],
    [ChildActivationStart], [ActivationStart], [GuardsCheckEnd],
    [ResolveStart], [ResolveEnd], [ActivationEnd], [ChildActivationEnd]
    and [NavigationEnd]; the activation events carry a route snapshot and
    no [url], the seven others carry the URL navigated to.  This file
    models that sequence ([navigation]) as inputs of [Runtime.step] and
    proves what one navigation does to the header, for any sequence of
    events of one URL ([run_router_events]) and for Angular's.  The
    routed step [step_routed] closes the loop between the header's
    [router.navigate] calls and the router's events: after an input, the
    navigations it started are delivered before the next input. *)

From S2P Require Import Prelude JsString Json JsonParse Storage Headers Runtime.

Inductive router_event_kind :=
  | NavigationStart | RoutesRecognized | GuardsCheckStart | ChildActivationStart
  | ActivationStart | GuardsCheckEnd | ResolveStart | ResolveEnd | ActivationEnd
  | ChildActivationEnd | NavigationEnd.

(** Whether events of this kind have a [url] property. *)
Definition carries_url (k : router_event_kind) : bool :=
  match k with
  | ChildActivationStart | ActivationStart | ActivationEnd | ChildActivationEnd => false
  | _ => true
  end.

Definition event_of (url : string) (k : router_event_kind) : router_event :=
  mk_router_event (if carries_url k then Some url else None).

Definition navigation_kinds : list router_event_kind :=
  [NavigationStart; RoutesRecognized; GuardsCheckStart; ChildActivationStart;
   ActivationStart; GuardsCheckEnd; ResolveStart; ResolveEnd; ActivationEnd;
   ChildActivationEnd; NavigationEnd].

(** The inputs a successful navigation to [url] delivers. *)
Definition navigation (url : string) : list input :=
  map (λ k, IRouter (event_of url k)) navigation_kinds.

(** How many events of a list the callback acts on. *)
Definition url_events (evs : list router_event) : nat :=
  length (List.filter (λ ev, match url_of ev with Some _ => true | None => false end) evs).

(** The updates the router callback makes, by the spec's menu. *)
Definition menu_update {St} `{WebStorage St} (m : menu) (sd cd : jsval) (w : world St)
    : world St :=
  match m with
  | MenuSeller => issue (CallSellerGetUser sd) (ReqSellerUser sd) w
  | MenuCustomer => issue (CallCustomerGetUser cd) (ReqCustomerUser cd) w
  | MenuDefault => set_hdr (with_menuType (menu_name MenuDefault)) w
  end.

(** The router's answer to the header's [navigate] calls: each
    [router.navigate([url])] (lines 93, 100, 105, 128 pass one absolute
    path) starts one navigation to [url]. *)
Definition navigations (cs : list call) : list input :=
  concat (map (λ c, match c with CallNavigate [url] => navigation url | _ => [] end) cs).

(** One input followed by the navigations it started, delivered before
    the next input (the router's events of a navigation come before any
    later user action). *)
Definition step_routed {St} `{WebStorage St} (i : input) (w : world St) : world St :=
  let w1 := step i w in run (navigations (drop (length (calls w)) (calls w1))) w1.

Definition run_routed {St} `{WebStorage St} (inputs : list input) (w : world St) : world St :=
  fold_left (λ w i, step_routed i w) inputs w.

(** ** One navigation *)

Lemma url_of_event_of (url : string) (k : router_event_kind) :
  url ≠ "" -> url_of (event_of url k) = if carries_url k then Some url else None.
Proof. intros Hu. unfold event_of, url_of. destruct (carries_url k); [|done]. by destruct url. Qed.

Lemma url_events_navigation (url : string) (ks : list router_event_kind) :
  url ≠ "" -> url_events (map (event_of url) ks) = length (List.filter carries_url ks).
Proof.
  intros Hu. induction ks as [|k ks IH]; [done|]. unfold url_events in *. simpl.
  rewrite url_of_event_of by done. destruct (carries_url k); simpl; lia.
Qed.

Lemma iter_add_error {St} `{WebStorage St} (e : js_error) (k : nat) (w : world St) :
  let w' := Nat.iter k (add_error e) w in
  errors w' = errors w ++ replicate k e ∧ hdr w' = hdr w ∧ store w' = store w ∧
  router_sub w' = router_sub w.
Proof.
  induction k as [|k (He & Hh & Hs & Hr)]; cbv zeta in *; [by rewrite app_nil_r|].
  rewrite Nat.iter_succ. cbn [add_error errors hdr store router_sub].
  by rewrite He, Hh, Hs, Hr, replicate_S_end, app_assoc.
Qed.

Lemma iter_issue {St} `{WebStorage St} (c : call) (r : request) (k : nat) (w : world St) :
  let w' := Nat.iter k (issue c r) w in
  calls w' = calls w ++ replicate k c ∧ next_id w' = next_id w + k ∧ hdr w' = hdr w ∧
  (∀ j, j < k -> pending w' !! (next_id w + j) = Some r).
Proof.
  induction k as [|k (Hc & Hn & Hh & Hp)]; cbv zeta in *.
  - simpl. split_and!; [by rewrite app_nil_r|lia|done|intros; lia].
  - rewrite Nat.iter_succ. cbn [issue add_call set_pending calls next_id hdr pending].
    rewrite Hc, Hn, Hh, replicate_S_end, app_assoc. split_and!; [done|lia|done|].
    intros j Hj. destruct (decide (j = k)) as [->|Hjk].
    + by rewrite lookup_insert_eq.
    + rewrite lookup_insert_ne by lia. apply Hp. lia.
Qed.

Section Navigation.
Context {St : Type} `{WebStorageLaws St}.
Implicit Types (w : world St).

Lemma menu_update_frame (m : menu) (sd cd : jsval) w :
  store (menu_update m sd cd w) = store w ∧ router_sub (menu_update m sd cd w) = router_sub w.
Proof. by destruct m. Qed.

(** A sequence of router events all of one URL runs the callback's
    update once per event with the URL. *)
Lemma run_router_events (evs : list router_event) (url : string) w (sd cd : jsval) :
  Forall (λ ev, url_of ev = None ∨ url_of ev = Some url) evs ->
  router_sub w = true ->
  marker (getItem (store w) key_admin) = Some sd ->
  marker (getItem (store w) key_customer) = Some cd ->
  run (map IRouter evs) w =
    Nat.iter (url_events evs)
      (menu_update (spec_menu (truthy sd) (truthy cd) (includes url products_marker)) sd cd) w.
Proof.
  intros Hevs. revert w. induction Hevs as [|ev evs Hev _ IH]; intros w Hs Hsd Hcd; [done|].
  cbn [map]. rewrite run_cons. cbn [step]. rewrite Hs. unfold run_handler.
  destruct Hev as [Hn|Hu].
  - rewrite on_router_event_no_url by done. unfold url_events. simpl. rewrite Hn.
    by apply IH.
  - rewrite (on_router_event_table ev url w sd cd Hu Hsd Hcd). fold (menu_update
      (spec_menu (truthy sd) (truthy cd) (includes url products_marker)) sd cd w).
    unfold url_events. simpl. rewrite Hu. simpl.
    destruct (menu_update_frame (spec_menu (truthy sd) (truthy cd) (includes url products_marker)) sd cd w)
      as [Hst Hsub].
    rewrite IH by (rewrite ?Hst, ?Hsub; done). rewrite <-Nat.iter_succ_r. done.
Qed.

(** One navigation to a seller page, used by the theorems that follow. *)
Lemma run_navigation_seller w (url : string) (sd cd : jsval) :
  url ≠ "" -> router_sub w = true ->
  marker (getItem (store w) key_admin) = Some sd ->
  marker (getItem (store w) key_customer) = Some cd ->
  spec_menu (truthy sd) (truthy cd) (includes url products_marker) = MenuSeller ->
  let w' := run (navigation url) w in
  calls w' = calls w ++ replicate 7 (CallSellerGetUser sd) ∧ next_id w' = next_id w + 7 ∧
  hdr w' = hdr w ∧ (∀ j, j < 7 -> pending w' !! (next_id w + j) = Some (ReqSellerUser sd)).
Proof.
  intros Hu Hs Hsd Hcd Hm. cbv zeta. unfold navigation. rewrite <-(map_map (event_of url) IRouter).
  rewrite (run_router_events _ url w sd cd); [|by apply Forall_fmap, Forall_forall;
    intros k _; unfold compose; rewrite url_of_event_of by done; destruct (carries_url k); auto|done..].
  rewrite url_events_navigation, Hm by done. apply (iter_issue _ _ 7 w).
Qed.

(** A seller answer to a request in flight sets the user name and the
    seller menu and retires the request; an answer to a request no
    longer in flight is dropped. *)
Lemma step_seller_response w (id : nat) (res : user_response) (sd : jsval) :
  pending w !! id = Some (ReqSellerUser sd) ->
  hdr (step (IUserResponse id res) w) =
    with_menuType "seller" (with_userName (username res) (hdr w)) ∧
  pending (step (IUserResponse id res) w) = delete id (pending w).
Proof. intros Hp. cbn [step]. rewrite Hp. done. Qed.

Lemma step_no_response w (id : nat) (res : user_response) :
  pending w !! id = None -> step (IUserResponse id res) w = w.
Proof. cbn [step]. by intros ->. Qed.

(** Answers to seller requests of the ids [R], in any order and any
    number, give the header of one answer. *)
Lemma run_seller_answers (R ids : list nat) w (res : user_response) (sd : jsval) (h0 : header) :
  (∀ id, id ∈ ids -> id ∈ R) ->
  (∀ id, id ∈ R -> pending w !! id = Some (ReqSellerUser sd) ∨ pending w !! id = None) ->
  (hdr w = with_menuType "seller" (with_userName (username res) h0) ∨
   (hdr w = h0 ∧ ∀ id, id ∈ R -> pending w !! id = Some (ReqSellerUser sd))) ->
  hdr (run (map (λ id, IUserResponse id res) ids) w) =
    match ids with [] => hdr w | _ => with_menuType "seller" (with_userName (username res) h0) end.
Proof.
  revert w. induction ids as [|id ids IH]; intros w Hsub HR Hh; [done|].
  cbn [map]. rewrite run_cons.
  assert (∃ w1, step (IUserResponse id res) w = w1 ∧
            hdr w1 = with_menuType "seller" (with_userName (username res) h0) ∧
            ∀ id', id' ∈ R -> pending w1 !! id' = Some (ReqSellerUser sd) ∨ pending w1 !! id' = None)
    as (w1 & -> & Hh1 & HR1).
  { destruct (HR id (Hsub id (proj2 (elem_of_cons _ _ _) (or_introl eq_refl)))) as [Hp|Hp].
    - destruct (step_seller_response w id res sd Hp) as [Hh' Hp'].
      eexists; split_and!; [done| |].
      + rewrite Hh'. by destruct Hh as [->|[-> _]].
      + intros id' Hid'. rewrite Hp', lookup_delete.
        case_decide; [by right|by apply HR].
    - rewrite step_no_response by done. eexists; split_and!; [done| |done].
      destruct Hh as [?|[_ Hall]]; [done|].
      rewrite Hall in Hp; [done|]. apply Hsub, elem_of_cons. by left. }
  rewrite IH; [by destruct ids| |done|by left].
  intros id' ?. apply Hsub, elem_of_cons. by right.
Qed.

(** The default menu, set once per event with a URL. *)
Lemma iter_default (k : nat) (sd cd : jsval) w :
  let w' := Nat.iter (S k) (menu_update MenuDefault sd cd) w in
  hdr w' = with_menuType "default" (hdr w) ∧ store w' = store w.
Proof.
  induction k as [|k (Hh & Hs)]; [done|]. cbv zeta in *.
  rewrite Nat.iter_succ. cbn [menu_update set_hdr hdr store]. by rewrite Hh, Hs.
Qed.

Lemma run_navigation_default w (url : string) (sd cd : jsval) :
  url ≠ "" -> router_sub w = true ->
  marker (getItem (store w) key_admin) = Some sd ->
  marker (getItem (store w) key_customer) = Some cd ->
  spec_menu (truthy sd) (truthy cd) (includes url products_marker) = MenuDefault ->
  let w' := run (navigation url) w in
  hdr w' = with_menuType "default" (hdr w) ∧ store w' = store w.
Proof.
  intros Hu Hs Hsd Hcd Hm. cbv zeta. unfold navigation. rewrite <-(map_map (event_of url) IRouter).
  rewrite (run_router_events _ url w sd cd); [|by apply Forall_fmap, Forall_forall;
    intros k _; unfold compose; rewrite url_of_event_of by done; destruct (carries_url k); auto|done..].
  rewrite url_events_navigation, Hm by done. apply (iter_default 6).
Qed.

(** With a marker that is not JSON, every event with a URL makes the
    callback throw, and the error is reported. *)
Lemma run_router_events_throw (evs : list router_event) w :
  router_sub w = true ->
  (marker (getItem (store w) key_admin) = None ∨ marker (getItem (store w) key_customer) = None) ->
  run (map IRouter evs) w = Nat.iter (url_events evs) (add_error SyntaxError) w.
Proof.
  revert w. induction evs as [|ev evs IH]; intros w Hs Hbad; [done|].
  cbn [map]. rewrite run_cons. cbn [step]. rewrite Hs. unfold run_handler.
  unfold url_events. simpl. destruct (url_of ev) as [url|] eqn:Hu.
  - rewrite (on_router_event_throws ev url w Hu Hbad). simpl.
    rewrite IH by done. by rewrite <-Nat.iter_succ_r.
  - rewrite on_router_event_no_url by done. by apply IH.
Qed.

Lemma run_navigation_throw (url : string) w :
  url ≠ "" -> router_sub w = true ->
  (marker (getItem (store w) key_admin) = None ∨ marker (getItem (store w) key_customer) = None) ->
  run (navigation url) w = Nat.iter 7 (add_error SyntaxError) w.
Proof.
  intros Hu Hs Hbad. unfold navigation. rewrite <-(map_map (event_of url) IRouter).
  by rewrite run_router_events_throw, url_events_navigation.
Qed.

(** ** The routed runs *)

(** A router event changes neither the storage nor the subscriptions. *)
Lemma step_router_frame (ev : router_event) w :
  let w' := step (IRouter ev) w in
  store w' = store w ∧ router_sub w' = router_sub w ∧ cart_sub w' = cart_sub w.
Proof.
  cbv zeta. cbn [step]. destruct (router_sub w) eqn:Hs; [|done].
  apply (preserves_run_handler
           (λ w', store w' = store w ∧ router_sub w' = true ∧ cart_sub w' = cart_sub w));
    [by intros ? ? (? & ? & ?)| |done].
  unfold_handlers. preserve_tac ltac:(simpl in *; naive_solver).
Qed.

Lemma run_router_frame (evs : list router_event) w :
  let w' := run (map IRouter evs) w in
  store w' = store w ∧ router_sub w' = router_sub w ∧ cart_sub w' = cart_sub w.
Proof.
  revert w. induction evs as [|ev evs IH]; intros w; [done|]. cbn [map]. rewrite run_cons.
  destruct (step_router_frame ev w) as (Hs & Hr & Hc).
  destruct (IH (step (IRouter ev) w)) as (Hs' & Hr' & Hc'). split_and!; congruence.
Qed.

Lemma navigation_frame (url : string) w :
  let w' := run (navigation url) w in
  store w' = store w ∧ router_sub w' = router_sub w ∧ cart_sub w' = cart_sub w.
Proof. unfold navigation. rewrite <-(map_map (event_of url) IRouter). apply run_router_frame. Qed.

(** An input whose handler appended [cs] to the calls is followed by the
    navigations [cs] starts. *)
Lemma step_routed_calls (i : input) w (cs : list call) :
  calls (step i w) = calls w ++ cs -> step_routed i w = run (navigations cs) (step i w).
Proof. intros Hc. unfold step_routed. by rewrite Hc, drop_app_length. Qed.

Lemma navigations_one (url : string) : navigations [CallNavigate [url]] = navigation url.
Proof. apply app_nil_r. Qed.

Lemma navigations_emit (url : string) (p : list jsval) :
  navigations [CallNavigate [url]; CallEmitCartLength p] = navigation url.
Proof. apply app_nil_r. Qed.

Lemma step_routed_search (v : string) w :
  step_routed (ISearch v) w = run (navigation (search_route v)) (step (ISearch v) w).
Proof. by rewrite (step_routed_calls _ _ [CallNavigate [search_route v]]), navigations_one. Qed.

Lemma step_routed_seller_logout w :
  step_routed ISellerLogout w = run (navigation root_route) (step ISellerLogout w).
Proof.
  destruct (onSellerLogout_effects w) as (w1 & Hs & _ & _ & Hc & _).
  rewrite (step_routed_calls _ _ [CallNavigate [root_route]]), navigations_one; [done|].
  cbn [step]. unfold run_handler. by rewrite Hs.
Qed.

Lemma step_routed_customer_logout w :
  step_routed ICustomerLogout w = run (navigation root_route) (step ICustomerLogout w).
Proof.
  destruct (onCustomerLogout_effects w) as (w1 & Hs & _ & _ & Hc & _).
  rewrite (step_routed_calls _ _ [CallNavigate [root_route]; CallEmitCartLength []]),
    navigations_emit; [done|].
  cbn [step]. unfold run_handler. by rewrite Hs.
Qed.

(** [C23] The callback runs for every router event that has a URL, not
    once per navigation: a navigation to a seller page (seller marker
    truthy, URL containing "products") calls
    [SellerSignupService.getUser] seven times with the same marker, and
    leaves seven requests in flight whose answers will each set the menu;
    the header itself is not changed until they arrive. *)
Theorem navigation_requests_seven_times w (url : string) (sd cd : jsval) :
  url ≠ "" -> router_sub w = true ->
  marker (getItem (store w) key_admin) = Some sd ->
  marker (getItem (store w) key_customer) = Some cd ->
  spec_menu (truthy sd) (truthy cd) (includes url products_marker) = MenuSeller ->
  let w' := run (navigation url) w in
  calls w' = calls w ++ replicate 7 (CallSellerGetUser sd) ∧ next_id w' = next_id w + 7 ∧
  hdr w' = hdr w ∧ (∀ j, j < 7 -> pending w' !! (next_id w + j) = Some (ReqSellerUser sd)).
Proof. apply run_navigation_seller. Qed.

(** [C24] The seven answers of one navigation are interchangeable:
    whichever of them arrive (at least one), in whatever order, and
    even delivered twice, the header ends with the seller menu and the
    user name of the answer, as after a single answer.  The duplicated
    requests of [C23] cost HTTP calls but do not change the outcome. *)
Theorem navigation_answers_any_order w (url : string) (sd cd : jsval) (res : user_response)
    (ids : list nat) :
  url ≠ "" -> router_sub w = true ->
  marker (getItem (store w) key_admin) = Some sd ->
  marker (getItem (store w) key_customer) = Some cd ->
  spec_menu (truthy sd) (truthy cd) (includes url products_marker) = MenuSeller ->
  ids ≠ [] -> Forall (λ id, next_id w ≤ id < next_id w + 7) ids ->
  hdr (run (map (λ id, IUserResponse id res) ids) (run (navigation url) w)) =
    with_menuType "seller" (with_userName (username res) (hdr w)).
Proof.
  intros Hu Hs Hsd Hcd Hm Hne Hids.
  destruct (run_navigation_seller w url sd cd Hu Hs Hsd Hcd Hm) as (_ & _ & Hh & Hp).
  assert (Hin : ∀ id, id ∈ seq (next_id w) 7 ->
            pending (run (navigation url) w) !! id = Some (ReqSellerUser sd)).
  { intros id [Hlo Hhi]%elem_of_seq. replace id with (next_id w + (id - next_id w)) by lia.
    apply Hp. lia. }
  rewrite (run_seller_answers (seq (next_id w) 7) ids _ res sd (hdr w)).
  - by destruct ids.
  - intros id Hid. rewrite Forall_forall in Hids. apply Hids in Hid. apply elem_of_seq. lia.
  - intros id Hid. left. by apply Hin.
  - right. split; [done|exact Hin].
Qed.

(** [C29] Searching from the header, composed with the router: the
    search box's [onSearch] navigates to [/search/v] (line 105), and the
    router delivers that navigation's events to the router callback.
    When the term [v] contains "products" and a valid seller marker is
    truthy, the header, whatever the customer marker, asks
    [SellerSignupService.getUser] seven times for the search page, after
    the one [navigate] call, and shows nothing new until they answer. *)
Theorem search_routed_seller w (v : string) (sd cd : jsval) :
  router_sub w = true -> includes v products_marker = true ->
  marker (getItem (store w) key_admin) = Some sd -> truthy sd = true ->
  marker (getItem (store w) key_customer) = Some cd ->
  let w' := step_routed (ISearch v) w in
  calls w' = calls w ++ CallNavigate [search_route v] :: replicate 7 (CallSellerGetUser sd) ∧
  next_id w' = next_id w + 7 ∧ hdr w' = hdr w.
Proof.
  intros Hs Hp Hsd Ht Hcd. cbv zeta. rewrite step_routed_search.
  destruct (run_navigation_seller (step (ISearch v) w) (search_route v) sd cd)
    as (Hc & Hn & Hh & _);
    [by unfold search_route; rewrite append_cons|done|done|done|
     by rewrite search_route_products, Hp, Ht|].
  rewrite Hc, Hn, Hh.
  change (calls (step (ISearch v) w)) with (calls w ++ [CallNavigate [search_route v]]).
  by rewrite <-app_assoc.
Qed.

(** [C30] Logging out of both roles brings the default menu back, with
    the router in the loop: seller logout and customer logout each
    navigate to the root (lines 93, 100), and the router delivers those
    navigations' events.  From any world whose router subscription is
    open, whatever the markers, the requests in flight and the cart, the
    header ends with no marker in storage, the default menu, and, when
    the cart subscription is open, a cart count of 0. *)
Theorem logouts_routed_default w :
  router_sub w = true ->
  let w' := run_routed [ISellerLogout; ICustomerLogout] w in
  menuType (hdr w') = "default" ∧
  getItem (store w') key_admin = None ∧ getItem (store w') key_customer = None ∧
  (cart_sub w = true -> cartCount (hdr w') = JNum (num_of_nat 0)).
Proof.
  intros Hs. cbv zeta. destruct storage_keys_distinct as (Hac & _).
  change (run_routed _ w) with (step_routed ICustomerLogout (step_routed ISellerLogout w)).
  rewrite step_routed_seller_logout, step_routed_customer_logout.
  destruct (onSellerLogout_effects w) as (w1 & Hs1 & Ha1 & _ & _ & _ & Hsubs1).
  injection Hsubs1 as Hr1 Hc1 _ _.
  assert (step ISellerLogout w = w1) as -> by (cbn [step]; unfold run_handler; by rewrite Hs1).
  destruct (navigation_frame root_route w1) as (Hst2 & Hr2 & Hc2).
  set (w2 := run (navigation root_route) w1) in *.
  destruct (onCustomerLogout_effects w2) as (w3 & Hs3 & Hcu3 & Ho3 & _ & Hcc3 & _).
  pose proof (onCustomerLogout_subs w2) as Hr3. rewrite Hs3 in Hr3. simpl in Hr3.
  assert (step ICustomerLogout w2 = w3) as -> by (cbn [step]; unfold run_handler; by rewrite Hs3).
  assert (getItem (store w3) key_admin = None) as Ha3 by (rewrite Ho3, Hst2 by congruence; done).
  destruct (run_navigation_default w3 root_route JNull JNull) as (Hh4 & Hst4);
    [done|congruence|by rewrite Ha3|by rewrite Hcu3|done|].
  rewrite Hh4, Hst4. split_and!; [done|done|done|]. intros Hcs. simpl. rewrite Hcc3. by rewrite Hc2, Hc1, Hcs.
Qed.

(** [C31] A malformed customer marker keeps the seller menu after
    seller logout: the logout removes [admin] and navigates to the root
    (lines 99-100), but every event of that navigation parses the
    customer marker (line 49) and throws, so the callback never reaches
    the default branch.  The seller marker is gone, the menu and the
    other header fields are as before the logout, and seven
    [SyntaxError]s are reported. *)
Theorem seller_logout_blocked_by_bad_customer w :
  router_sub w = true -> marker (getItem (store w) key_customer) = None ->
  let w' := step_routed ISellerLogout w in
  getItem (store w') key_admin = None ∧ hdr w' = hdr w ∧
  errors w' = errors w ++ replicate 7 SyntaxError.
Proof.
  intros Hs Hc. cbv zeta. destruct storage_keys_distinct as (Hac & _).
  rewrite step_routed_seller_logout.
  destruct (onSellerLogout_effects w) as (w1 & Hs1 & Ha1 & Ho1 & _ & Hh1 & Hsubs1).
  injection Hsubs1 as Hr1 _ _ _.
  assert (errors w1 = errors w) as He1
    by (cbv [onSellerLogout local_removeItem navigate bind modify] in Hs1; by injection Hs1 as <-).
  assert (step ISellerLogout w = w1) as -> by (cbn [step]; unfold run_handler; by rewrite Hs1).
  rewrite run_navigation_throw; [|done|congruence|right; rewrite Ho1 by congruence; done].
  destruct (iter_add_error SyntaxError 7 w1) as (He & Hh & Hst & _).
  rewrite He, Hh, Hst, He1. by split_and!.
Qed.

End Navigation.
