(* ===== verification/Session.v ===== *)
(** * The session markers, from the login pages to the header

    The seller and customer login pages (outside [src/]) keep the user
    record the server returned under [admin] or [customer] with
    [localStorage.setItem(key, JSON.stringify(record))]; the logout
    methods of the header remove them.  [Web Storage] converts the value
    to a string, so when [JSON.stringify] returns [undefined] (for an
    [undefined] record) the text stored is "undefined".  This file
    composes that writer ([json_text], [login_input], the runtime input
    [IStorageSet]) with the header's reader ([Headers.marker], the router
    callback):
    - a record written by a login page is read back by the header as its
      normal form [json_norm] (infinite numbers as [null], zeros as [0]),
      and that is the value passed to the identity service;
    - a customer record makes the header request the server cart count
      once, whatever the record.
    The logouts, which remove what the login pages wrote, are composed
    with the router's navigation in [Router] ([logouts_routed_default]). *)

From S2P Require Import Prelude JsString Json JsonParse JsonPrint Storage Headers Runtime.

(** [String(JSON.stringify(v))], the text [setItem] stores. *)
Definition json_text (v : jsval) : string :=
  match stringify v with
  | Some t => string_of_units t
  | None => "undefined"
  end.

(** A number that rounds to an infinite double, which [JSON.stringify]
    writes as [null]. *)
Definition is_infinite (v : jsval) : bool :=
  match v with JNum n => num_overflows n | _ => false end.

(** A login page storing the record [v] under [k]. *)
Definition login_input (k : string) (v : jsval) : input := IStorageSet k (json_text v).

(** ** The text of a record *)

Lemma print_nonempty (v : jsval) : print v ≠ [].
Proof. by destruct (print_head v) as (c & r & -> & _). Qed.

Lemma string_of_units_nonempty (l : list N) : l ≠ [] -> string_of_units l ≠ "".
Proof. by destruct l. Qed.

(** The header reads back the normal form of the record a login page
    stored. *)
Lemma marker_json_text (v : jsval) :
  wf v = true -> bytes v = true -> marker (Some (json_text v)) = Some (json_norm v).
Proof.
  intros Hwf Hb. unfold json_text, stringify. rewrite wf_defined by done.
  pose proof (string_of_units_nonempty (print v) (print_nonempty v)) as Hne.
  assert (json_parse (string_of_units (print v)) = Some (json_norm v)) as Hp.
  { unfold json_parse. rewrite units_string_of_units by by apply print_bytes.
    by apply json_parse_units_print. }
  unfold marker. by destruct (string_of_units (print v)).
Qed.

Lemma json_text_nonempty (v : jsval) : json_text v ≠ "".
Proof.
  unfold json_text, stringify. destruct (is_undefined v); [done|].
  apply string_of_units_nonempty, print_nonempty.
Qed.

(** Normalising keeps truthiness, except that an infinite number (truthy)
    becomes [null] (falsy). *)
Lemma truthy_json_norm (v : jsval) :
  truthy (json_norm v) = truthy v && negb (is_infinite v).
Proof.
  destruct v as [| | |n| | |]; simpl; rewrite ?andb_true_r; try done.
  destruct (num_overflows n); simpl; [by rewrite andb_false_r|]. rewrite andb_true_r.
  destruct (num_is_zero n) eqn:Hz; simpl; [done|by rewrite Hz].
Qed.

Section Login.
Context {St : Type} `{WebStorageLaws St}.
Implicit Types (w : world St).

Lemma step_login_store (k : string) (v : jsval) w :
  store (step (login_input k v) w) = setItem (store w) k (json_text v).
Proof. reflexivity. Qed.

Lemma step_login_frame (k : string) (v : jsval) w :
  let w' := step (login_input k v) w in
  hdr w' = hdr w ∧ router_sub w' = router_sub w ∧ cart_sub w' = cart_sub w ∧
  pending w' = pending w ∧ next_id w' = next_id w ∧ calls w' = calls w.
Proof. done. Qed.

(** The marker under [k] after a login page wrote [v] there, and the
    other markers as they were. *)
Lemma login_marker (k k' : string) (v : jsval) w :
  getItem (store (step (login_input k v) w)) k' =
  if decide (k' = k) then Some (json_text v) else getItem (store w) k'.
Proof.
  rewrite step_login_store. case_decide; subst;
    [by rewrite getItem_setItem_eq | by rewrite getItem_setItem_ne].
Qed.

End Login.

(** ** Claims *)

(** [C18] Round trip through storage: for every record a login page can
    store (a JSON value with no [undefined] inside whose strings are byte
    strings, with any escapes, numbers and nesting), the header's
    [x && JSON.parse(x)] on the stored text gives back the record with
    its infinite numbers as [null] and its zeros as [0] ([json_norm]),
    and the marker counts as a session exactly when the record is truthy
    and is not itself an infinite number. *)
Theorem stored_record_read_back (v : jsval) :
  wf v = true -> bytes v = true ->
  marker (Some (json_text v)) = Some (json_norm v) ∧
  session (Some (json_text v)) = Some (truthy v && negb (is_infinite v)).
Proof. intros Hwf Hb. unfold session. rewrite marker_json_text by done. simpl. by rewrite truthy_json_norm. Qed.

Section LoginClaims.
Context {St : Type} `{WebStorageLaws St}.
Implicit Types (w : world St).

(** [C19] The seller flow end to end: a login page stores the seller
    record [v] (any truthy JSON value with no [undefined] inside that is
    not an infinite number, such as the user object the server returns);
    the next router event on a URL containing "products" passes
    [SellerSignupService.getUser] the record as [JSON.stringify] and
    [JSON.parse] leave it ([json_norm v]: [v] itself unless it holds
    infinite numbers or zeros), and its answer sets the seller menu and
    the user name it carries.  The customer marker may be anything
    valid, a customer session included (the seller branch is tested
    first). *)
Theorem seller_login_flow w (v cd : jsval) (ev : router_event) (url : string)
    (res : user_response) :
  wf v = true -> bytes v = true -> truthy v = true -> is_infinite v = false ->
  router_sub w = true -> url_of ev = Some url -> includes url products_marker = true ->
  marker (getItem (store w) key_customer) = Some cd ->
  let w' := run [login_input key_admin v; IRouter ev; IUserResponse (next_id w) res] w in
  menuType (hdr w') = "seller" ∧ userName (hdr w') = username res ∧
  calls w' = calls w ++ [CallSellerGetUser (json_norm v)].
Proof.
  intros Hwf Hb Ht Hi Hsub Hurl Hp Hcd. cbv zeta.
  set (w1 := step (login_input key_admin v) w).
  assert (marker (getItem (store w1) key_admin) = Some (json_norm v)) as Hsd1.
  { unfold w1. rewrite login_marker, decide_True by done. by apply marker_json_text. }
  assert (marker (getItem (store w1) key_customer) = Some cd) as Hcd1.
  { unfold w1. rewrite login_marker, decide_False by (destruct storage_keys_distinct; congruence).
    done. }
  cbn [run fold_left]. fold w1. cbn [step]. replace (router_sub w1) with true by done.
  unfold run_handler. rewrite (on_router_event_table ev url w1 (json_norm v) cd Hurl Hsd1 Hcd1).
  unfold spec_menu. rewrite truthy_json_norm, Ht, Hi, Hp. simpl.
  replace (next_id w) with (next_id w1) by done. rewrite lookup_insert_eq. done.
Qed.

(** [C25] The customer flow and the cart count (spec section 8, third
    property): a login page stores a customer record (any value: the
    raw text is tested, see [C15]), the header initialises on a readable
    cart snapshot of count [n]; then, whatever inputs follow, the server
    cart count has been requested exactly once, and the count shown is
    the snapshot's [n] overridden by each later broadcast. *)
Theorem customer_cart_flow (s0 : St) (v : jsval) (c : string) (n : jsval)
    (inputs : list input) :
  getItem s0 key_localCart = Some c -> snapshot_length c = Some n ->
  let w := run (login_input key_customer v :: IInit :: inputs) (world_init s0) in
  cart_fetches w = 1 ∧ cartCount (hdr w) = fold_left cart_spec inputs n.
Proof.
  intros Hc Hn. cbv zeta. rewrite run_cons.
  change (step (login_input key_customer v) (world_init s0))
    with (world_init (setItem s0 key_customer (json_text v))).
  destruct storage_keys_distinct as (_ & _ & Hcl).
  destruct (init_cart_flow (setItem s0 key_customer (json_text v)) c n inputs)
    as [Hf Hcc]; [by rewrite getItem_setItem_ne by congruence|done|].
  rewrite getItem_setItem_eq in Hf. split; [|done]. rewrite Hf.
  pose proof (json_text_nonempty v). by destruct (json_text v).
Qed.

End LoginClaims.
