(* ===== verification/Witnesses.v ===== *)
(** * Concrete runs of the header

    Storages and worlds on which the theorems with hypotheses are applied:
    each [*_witness] lemma instantiates one theorem on a concrete storage
    (a [gmap]), discharging its hypotheses by evaluation. *)

From S2P Require Import Prelude JsString Json JsonParse JsonPrint Storage Headers Runtime Router Session.

Abbreviation Store := (gmap string string).

Definition dq : string := String "034"%char EmptyString.

(** The JSON texts [{"id":1}] and [{"id":2}] stored by the login pages,
    a cart of three items, and two malformed texts. *)
Definition seller_marker : string := String.append "{" (String.append dq (String.append "id" (String.append dq ":1}"))).
Definition customer_marker : string := String.append "{" (String.append dq (String.append "id" (String.append dq ":2}"))).
Definition cart_snapshot : string := "[1,2,3]".
Definition broken_json : string := "[1,2".

Definition seller_value : jsval := JObj [(units "id", JNum (JsNum false 1 0))].
Definition customer_value : jsval := JObj [(units "id", JNum (JsNum false 2 0))].

Definition store_both : Store :=
  <[key_admin := seller_marker]> (<[key_customer := customer_marker]>
    (<[key_localCart := cart_snapshot]> ∅)).
Definition store_seller : Store :=
  <[key_admin := seller_marker]> (<[key_localCart := cart_snapshot]> ∅).
Definition store_bad_admin : Store :=
  <[key_admin := broken_json]> (<[key_customer := customer_marker]> ∅).
Definition store_bad_cart : Store :=
  <[key_localCart := broken_json]> (<[key_customer := customer_marker]> ∅).
Definition store_null_customer : Store := <[key_customer := "null"]> ∅.
Definition store_bad_customer : Store :=
  <[key_admin := seller_marker]> (<[key_customer := broken_json]> ∅).

(** A user record with a string that needs every kind of escape, a
    negative number with an exponent, and nesting. *)
Definition rich_record : jsval :=
  JObj [(units "id", JNum (JsNum false 1 0));
        (units "name", JStr [115; 34; 92; 10; 1; 127]%N);
        (units "tags", JArr [JBool true; JNull; JNum (JsNum true 25 (-1)); JArr []; JObj []]);
        (units "big", JNum (JsNum false 1 400)); (units "zero", JNum (JsNum true 0 0))].

(** What the header reads back: [1e400] (an infinity) as [null], [-0] as [0]. *)
Definition rich_record_read : jsval :=
  JObj [(units "id", JNum (JsNum false 1 0));
        (units "name", JStr [115; 34; 92; 10; 1; 127]%N);
        (units "tags", JArr [JBool true; JNull; JNum (JsNum true 25 (-1)); JArr []; JObj []]);
        (units "big", JNull); (units "zero", JNum (JsNum false 0 0))].

Definition products_url : string := "/seller-add-products".
Definition products_event : router_event := mk_router_event (Some products_url).
Definition home_event : router_event := mk_router_event (Some root_route).

(** The header after Angular called [ngOnInit] on a storage. *)
Definition booted (s : Store) : world Store := step IInit (world_init s).

Definition seller_answer : user_response := mk_user_response "sam".

(** ** Witnesses *)

Lemma reachable_booted (s : Store) : reachable s (booted s).
Proof. eapply reach_step; [apply reach_init | apply step_by]. Qed.

Lemma on_router_event_decision_witness :
  on_router_event products_event (booted store_both) =
    Normal tt (issue (CallSellerGetUser seller_value) (ReqSellerUser seller_value)
                     (booted store_both)).
Proof.
  apply (on_router_event_decision products_event products_url (booted store_both)
           seller_value customer_value); vm_compute; reflexivity.
Defined.

Lemma menu_refines_spec_sync_witness :
  menuType (hdr (run [IRouter products_event;
                      IUserResponse (next_id (booted store_both)) seller_answer]
                     (booted store_both))) = "seller".
Proof.
  apply (menu_refines_spec_sync store_both (booted store_both) products_event products_url
           seller_value customer_value seller_answer);
    [apply reachable_booted | vm_compute; reflexivity ..].
Defined.

Lemma stale_identity_response_witness :
  let w := run [IRouter products_event] (booted store_seller) in
  menuType (hdr (step (IRouter home_event) w)) = "default" ∧
  menuType (hdr (run [IRouter home_event; IUserResponse 0 seller_answer] w)) = "seller".
Proof.
  apply (stale_identity_response _ home_event root_route seller_value JNull 0
           (ReqSellerUser seller_value) MenuSeller seller_answer); vm_compute; reflexivity.
Defined.

Lemma reachable_inv_witness : world_inv (booted store_both).
Proof. apply (reachable_inv store_both). apply reachable_booted. Defined.

Lemma on_router_event_syntax_error_witness :
  on_router_event products_event (world_init store_bad_admin) =
    Throw SyntaxError (world_init store_bad_admin).
Proof.
  apply (on_router_event_syntax_error products_event products_url); [reflexivity|].
  left. vm_compute. reflexivity.
Defined.

Lemma ngOnInit_snapshot_witness :
  ∃ w', ngOnInit (world_init store_both) = Normal tt w' ∧
    cartCount (hdr w') = JNum (num_of_nat 3) ∧ router_sub w' = true ∧ cart_sub w' = true ∧
    calls w' = [] ++ [CallGetCartCount] ∧ menuType (hdr w') = "default".
Proof.
  pose proof (ngOnInit_snapshot (world_init store_both) cart_snapshot (JNum (num_of_nat 3)))
    as P.
  vm_compute in P |- *. apply P; reflexivity.
Defined.

Lemma ngOnInit_bad_snapshot_witness :
  ∃ e w', ngOnInit (world_init store_bad_cart) = Throw e w' ∧
    router_sub w' = true ∧ cart_sub w' = false ∧ calls w' = [] ∧ hdr w' = header_init.
Proof.
  pose proof (ngOnInit_bad_snapshot (world_init store_bad_cart) broken_json) as P.
  vm_compute in P |- *. apply P; [reflexivity | discriminate | reflexivity].
Defined.

Lemma bad_snapshot_freezes_cart_witness :
  cartCount (hdr (run [ICartBroadcast [JNull; JNull]; ICustomerLogout;
                       ICartBroadcast [JNull]] (booted store_bad_cart))) =
    JNum (num_of_nat 0).
Proof.
  apply (bad_snapshot_freezes_cart store_bad_cart broken_json);
    [vm_compute; reflexivity | discriminate | vm_compute; reflexivity].
Defined.

Lemma customer_logout_then_navigation_witness :
  let w' := run [ICustomerLogout; IRouter home_event] (booted store_both) in
  menuType (hdr w') = "default" ∧ cartCount (hdr w') = JNum (num_of_nat 0) ∧
  getItem (store w') key_customer = None.
Proof.
  apply (customer_logout_then_navigation (booted store_both) home_event seller_value);
    vm_compute; reflexivity.
Defined.

Lemma search_last_answer_wins_witness :
  let w := run [IKeyUp (Some "s"); IKeyUp (Some "sh")] (booted store_both) in
  searchResults (hdr (run [ISearchResponse 1 [JBool true];
                           ISearchResponse 0 [JNull; JNull]] w)) =
    Some [JNull; JNull].
Proof.
  apply (search_last_answer_wins _ 0 1 "s" "sh" [JNull; JNull] [JBool true]);
    [discriminate | vm_compute; reflexivity ..].
Defined.

Lemma customer_marker_raw_vs_parsed_witness :
  session (Some "null") = Some false ∧
  ∃ w', ngOnInit (world_init store_null_customer) = Normal tt w' ∧
    calls w' = [] ++ [CallGetCartCount].
Proof.
  pose proof (customer_marker_raw_vs_parsed (world_init store_null_customer) "null" JNull)
    as P.
  vm_compute in P |- *. apply P; reflexivity.
Defined.

Lemma onCustomerLogout_spec_witness :
  ∃ w', onCustomerLogout (booted store_both) = Normal tt w' ∧
    getItem (store w') key_customer = None ∧
    (∀ k, k ≠ key_customer -> getItem (store w') k = getItem (store (booted store_both)) k) ∧
    calls w' = calls (booted store_both) ++ [CallNavigate [root_route]; CallEmitCartLength []] ∧
    cartCount (hdr w') =
      (if cart_sub (booted store_both) then JNum (num_of_nat 0)
       else cartCount (hdr (booted store_both))) ∧
    menuType (hdr w') = menuType (hdr (booted store_both)) ∧
    userName (hdr w') = userName (hdr (booted store_both)).
Proof. apply (onCustomerLogout_spec (booted store_both)). Defined.

Lemma onSellerLogout_spec_witness :
  ∃ w', onSellerLogout (booted store_both) = Normal tt w' ∧
    getItem (store w') key_admin = None ∧
    (∀ k, k ≠ key_admin -> getItem (store w') k = getItem (store (booted store_both)) k) ∧
    calls w' = calls (booted store_both) ++ [CallNavigate [root_route]] ∧
    hdr w' = hdr (booted store_both).
Proof. apply (onSellerLogout_spec (booted store_both)). Defined.

Lemma on_search_results_bounds_witness :
  ∃ w' r, on_search_results [JNull; JNull; JNull; JNull; JNull; JNull; JNull]
            (booted store_both) = Normal tt w' ∧
    searchResults (hdr w') = Some r ∧
    length r = min 5 7 ∧
    r `prefix_of` [JNull; JNull; JNull; JNull; JNull; JNull; JNull] ∧
    (7 ≤ 5 -> r = [JNull; JNull; JNull; JNull; JNull; JNull; JNull]).
Proof. apply (on_search_results_bounds [JNull; JNull; JNull; JNull; JNull; JNull; JNull]). Defined.

Lemma cart_user_commute_witness :
  let w := run [IRouter products_event] (booted store_both) in
  step (ICartBroadcast [JNull]) (step (IUserResponse 0 seller_answer) w) =
  step (IUserResponse 0 seller_answer) (step (ICartBroadcast [JNull]) w).
Proof. apply (cart_user_commute _ [JNull] 0 seller_answer). Defined.

Lemma stored_record_read_back_witness :
  marker (Some (json_text rich_record)) = Some rich_record_read ∧
  session (Some (json_text rich_record)) = Some true.
Proof.
  destruct (stored_record_read_back rich_record) as [H1 H2]; [vm_compute; reflexivity..|].
  rewrite H1, H2. split; vm_compute; reflexivity.
Defined.

Lemma seller_login_flow_witness :
  let w' := run [login_input key_admin rich_record; IRouter products_event;
                 IUserResponse (next_id (booted store_both)) seller_answer] (booted store_both) in
  menuType (hdr w') = "seller" ∧ userName (hdr w') = "sam" ∧
  calls w' = calls (booted store_both) ++ [CallSellerGetUser rich_record_read].
Proof.
  destruct (seller_login_flow (booted store_both) rich_record customer_value products_event
              products_url seller_answer) as (H1 & H2 & H3); [vm_compute; reflexivity..|].
  split_and!; [exact H1|exact H2|]. rewrite H3. vm_compute. reflexivity.
Defined.

Lemma cartCount_stays_number_witness :
  is_number (cartCount (hdr (step IInit (world_init store_both)))) = true.
Proof.
  apply (cartCount_stays_number IInit (world_init store_both)); [vm_compute; reflexivity|].
  intros _ c n Hc Hn. vm_compute in Hc. injection Hc as <-. vm_compute in Hn.
  injection Hn as <-. reflexivity.
Defined.

Lemma cart_refines_spec_witness :
  cartCount (hdr (run [ICartBroadcast [JNull; JNull]; IRouter home_event; ISellerLogout]
                      (booted store_both))) =
  JNum (num_of_nat 2).
Proof.
  apply (cart_refines_spec store_both (booted store_both)
           [ICartBroadcast [JNull; JNull]; IRouter home_event; ISellerLogout]);
    [apply reachable_booted | vm_compute; reflexivity].
Defined.

Lemma cart_fetched_at_most_once_witness :
  let w := run [ICustomerLogout; IInit; IRouter products_event] (booted store_both) in
  cart_fetches w ≤ 1 ∧ (inited w = false -> cart_fetches w = 0).
Proof.
  apply (cart_fetched_at_most_once store_both). apply reachable_run, reachable_booted.
Defined.

Lemma navigation_requests_seven_times_witness :
  let w := booted store_seller in
  let w' := run (navigation products_url) w in
  calls w' = calls w ++ replicate 7 (CallSellerGetUser seller_value) ∧
  next_id w' = next_id w + 7 ∧ hdr w' = hdr w ∧
  (∀ j, j < 7 -> pending w' !! (next_id w + j) = Some (ReqSellerUser seller_value)).
Proof.
  apply (navigation_requests_seven_times (booted store_seller) products_url seller_value JNull);
    vm_compute; try reflexivity; discriminate.
Defined.


Lemma navigation_answers_any_order_witness :
  hdr (run (map (λ id, IUserResponse id seller_answer) [3; 0; 3; 6])
           (run (navigation products_url) (booted store_seller))) =
    with_menuType "seller" (with_userName "sam" (hdr (booted store_seller))).
Proof.
  apply (navigation_answers_any_order (booted store_seller) products_url seller_value JNull
           seller_answer [3; 0; 3; 6]); try (vm_compute; reflexivity); try discriminate.
  repeat constructor; vm_compute; lia.
Defined.

Lemma customer_cart_flow_witness :
  let w := run (login_input key_customer customer_value :: IInit ::
                [ICartBroadcast [JNull]; IRouter home_event]) (world_init store_seller) in
  cart_fetches w = 1 ∧ cartCount (hdr w) = JNum (num_of_nat 1).
Proof.
  apply (customer_cart_flow store_seller customer_value cart_snapshot (JNum (num_of_nat 3)));
    vm_compute; reflexivity.
Defined.

Lemma snapshot_count_without_customer_witness :
  let w := run (IInit :: [IRouter products_event; ISellerLogout]) (world_init store_seller) in
  cart_fetches w = 0 ∧ cartCount (hdr w) = JNum (num_of_nat 3).
Proof.
  apply (snapshot_count_without_customer store_seller cart_snapshot (JNum (num_of_nat 3)));
    vm_compute; reflexivity.
Defined.

Lemma search_routed_seller_witness :
  let w' := step_routed (ISearch "my-products") (booted store_seller) in
  calls w' = calls (booted store_seller) ++
    CallNavigate [search_route "my-products"] :: replicate 7 (CallSellerGetUser seller_value) ∧
  next_id w' = next_id (booted store_seller) + 7 ∧ hdr w' = hdr (booted store_seller).
Proof.
  apply (search_routed_seller (booted store_seller) "my-products" seller_value JNull);
    vm_compute; reflexivity.
Defined.

Lemma logouts_routed_default_witness :
  let w' := run_routed [ISellerLogout; ICustomerLogout] (booted store_both) in
  menuType (hdr w') = "default" ∧
  getItem (store w') key_admin = None ∧ getItem (store w') key_customer = None ∧
  (cart_sub (booted store_both) = true -> cartCount (hdr w') = JNum (num_of_nat 0)).
Proof. apply (logouts_routed_default (booted store_both)). vm_compute. reflexivity. Defined.

Lemma seller_logout_blocked_by_bad_customer_witness :
  let w' := step_routed ISellerLogout (booted store_bad_customer) in
  getItem (store w') key_admin = None ∧ hdr w' = hdr (booted store_bad_customer) ∧
  errors w' = errors (booted store_bad_customer) ++ replicate 7 SyntaxError.
Proof. apply seller_logout_blocked_by_bad_customer; vm_compute; reflexivity. Defined.
